(** * HRMS Lite: the REST handlers of [server/index.js] over a relational store

    The server keeps two SQLite tables, [employees] and [attendance], and
    answers seven routes.  This development embeds

    - the two validation helpers [isValidEmail] and [isValidDate], which are
      regular-expression tests, through a small regular-expression engine;
    - the SQL statements the handlers issue, as functions on a store made of
      the two tables' rows and the AUTOINCREMENT counter, with the
      constraints of the schema (PRIMARY KEY, UNIQUE, FOREIGN KEY ... ON
      DELETE CASCADE) enforced by the statements themselves;
    - the handlers, as functions from a request and a store to a response
      and a store.

    Conventions.  A string is a sequence of code units below 256, compared
    code unit by code unit, which is what both JavaScript and SQLite's
    BINARY collation do on such text.  A request field is absent, [null]
    or a string (the shapes the documented payloads have).  A handler runs
    from its first statement to its last without another request in
    between.  The clock read by [nowIso] is an argument of the handlers
    that write. *)

From Stdlib Require Import List String Ascii Bool Arith ZArith Lia.
From Stdlib Require Import Sorting.Sorted Sorting.Permutation.
Import ListNotations.

Local Open Scope string_scope.
Local Open Scope list_scope.

(** ** Regular expressions *)

Module Regex.

(** The fragment of the JavaScript pattern language the two patterns of
    the server use: character classes, concatenation, and the [+]
    quantifier (as [Cat r (Star r)]).  Both patterns are anchored by [^]
    and [$] and carry no flag, so [test] asks whether the whole string
    is in the language. *)
Inductive regex : Type :=
| Void : regex
| Eps : regex
| Class : (ascii -> bool) -> regex
| Cat : regex -> regex -> regex
| Alt : regex -> regex -> regex
| Star : regex -> regex.

Definition Lit (c : ascii) : regex := Class (Ascii.eqb c).
Definition Plus (r : regex) : regex := Cat r (Star r).

Fixpoint Times (n : nat) (r : regex) : regex :=
  match n with
  | O => Eps
  | S k => Cat r (Times k r)
  end.

Fixpoint nullable (r : regex) : bool :=
  match r with
  | Void => false
  | Eps => true
  | Class _ => false
  | Cat r1 r2 => nullable r1 && nullable r2
  | Alt r1 r2 => nullable r1 || nullable r2
  | Star _ => true
  end.

Fixpoint deriv (c : ascii) (r : regex) : regex :=
  match r with
  | Void => Void
  | Eps => Void
  | Class p => if p c then Eps else Void
  | Cat r1 r2 =>
      if nullable r1
      then Alt (Cat (deriv c r1) r2) (deriv c r2)
      else Cat (deriv c r1) r2
  | Alt r1 r2 => Alt (deriv c r1) (deriv c r2)
  | Star r1 => Cat (deriv c r1) (Star r1)
  end.

(** [test r s]: the anchored pattern [r] accepts the whole of [s]. *)
Fixpoint test (r : regex) (s : string) : bool :=
  match s with
  | EmptyString => nullable r
  | String c s' => test (deriv c r) s'
  end.

(** The language of a pattern, as the pattern reads. *)
Inductive Matches : regex -> string -> Prop :=
| MEps : Matches Eps ""
| MClass p c : p c = true -> Matches (Class p) (String c "")
| MCat r1 r2 s1 s2 :
    Matches r1 s1 -> Matches r2 s2 -> Matches (Cat r1 r2) (s1 ++ s2)
| MAltL r1 r2 s : Matches r1 s -> Matches (Alt r1 r2) s
| MAltR r1 r2 s : Matches r2 s -> Matches (Alt r1 r2) s
| MStarNil r : Matches (Star r) ""
| MStarCons r s1 s2 :
    Matches r s1 -> Matches (Star r) s2 -> Matches (Star r) (s1 ++ s2).

Create HintDb regex.
#[export] Hint Constructors Matches : regex.

End Regex.

Import Regex.

(** ** Validation helpers *)

(** [\d]: the ten ASCII digits. *)
Definition is_digit (c : ascii) : bool :=
  let n := nat_of_ascii c in (48 <=? n)%nat && (n <=? 57)%nat.

(** [\s] restricted to code units below 256: TAB, LF, VT, FF, CR, SPACE and
    NO-BREAK SPACE. *)
Definition is_space (c : ascii) : bool :=
  let n := nat_of_ascii c in
  ((9 <=? n)%nat && (n <=? 13)%nat) || (n =? 32)%nat || (n =? 160)%nat.

(** [[^\s@]] *)
Definition not_space_at (c : ascii) : bool :=
  negb (is_space c) && negb (Ascii.eqb c "@").

(** [String.prototype.toLowerCase] on code units below 256: A-Z and the
    Latin-1 capitals (all of 0xC0-0xDE but the multiplication sign 0xD7) move
    up by 32. *)
Definition lower_char (c : ascii) : ascii :=
  let n := nat_of_ascii c in
  if ((65 <=? n)%nat && (n <=? 90)%nat)
     || ((192 <=? n)%nat && (n <=? 222)%nat && negb (n =? 215)%nat)
  then ascii_of_nat (n + 32)
  else c.

Fixpoint toLowerCase (s : string) : string :=
  match s with
  | EmptyString => EmptyString
  | String c s' => String (lower_char c) (toLowerCase s')
  end.

(** [/^[^\s@]+@[^\s@]+\.[^\s@]+$/] *)
Definition email_pattern : regex :=
  Cat (Plus (Class not_space_at))
      (Cat (Lit "@")
           (Cat (Plus (Class not_space_at))
                (Cat (Lit ".") (Plus (Class not_space_at))))).

(** [/^\d{4}-\d{2}-\d{2}$/] *)
Definition date_pattern : regex :=
  Cat (Times 4 (Class is_digit))
      (Cat (Lit "-")
           (Cat (Times 2 (Class is_digit))
                (Cat (Lit "-") (Times 2 (Class is_digit))))).

Definition isValidEmail (email : string) : bool :=
  test email_pattern (toLowerCase email).

Definition isValidDate (dateStr : string) : bool :=
  test date_pattern dateStr.

(** ** Request values *)

(** A field of a JSON body or of a query string: absent, [null], or a
    string. *)
Inductive JsVal : Type :=
| JUndefined : JsVal
| JNull : JsVal
| JString : string -> JsVal.

(** JavaScript truthiness, as the guards [!x] and [if (x)] use it: the
    string a truthy value is, and [None] for [undefined], [null] and the
    empty string. *)
Definition truthy (v : JsVal) : option string :=
  match v with
  | JUndefined => None
  | JNull => None
  | JString s => if (s =? "")%string then None else Some s
  end.

(** ** Rows and store *)

Record Employee : Type := mkEmployee {
  employee_id : string;
  full_name : string;
  email : string;
  department : string;
  created_at : string
}.

Record Attendance : Type := mkAttendance {
  att_id : Z;
  att_employee_id : string;
  att_date : string;
  att_status : string;
  att_created_at : string
}.

(** The database: the rows of the two tables in rowid order, and the
    [sqlite_sequence] entry that AUTOINCREMENT keeps for [attendance]. *)
Record Store : Type := mkStore {
  employees : list Employee;
  attendance : list Attendance;
  attendance_seq : Z
}.

(** The database right after [initDb] on a fresh file. *)
Definition empty_store : Store := mkStore [] [] 0.

Inductive SqlError : Type :=
| SQLITE_CONSTRAINT : SqlError
| SQLITE_FULL : SqlError.

Inductive result (A : Type) : Type :=
| Ok : A -> result A
| Failed : SqlError -> result A.

Arguments Ok {A} _.
Arguments Failed {A} _.

(** ** Sorting, for ORDER BY *)

Section OrderBy.
Context {A : Type} (le : A -> A -> bool).

Fixpoint insert_by (x : A) (l : list A) : list A :=
  match l with
  | [] => [x]
  | y :: t => if le x y then x :: y :: t else y :: insert_by x t
  end.

(** Rows that compare equal keep the order of the scan; SQL leaves their
    order open, and nothing below depends on it. *)
Definition order_by (l : list A) : list A := fold_right insert_by [] l.
End OrderBy.

(** ** The SQL statements of the handlers *)

Module Sql.

(** Largest rowid of a table; AUTOINCREMENT refuses to go past it. *)
Definition max_rowid : Z := 9223372036854775807.

(** [SELECT employee_id FROM employees WHERE employee_id = ?], through
    [get]: the first row, or nothing. *)
Definition select_employee_id (eid : string) (st : Store) : option string :=
  option_map employee_id
    (find (fun e => (employee_id e =? eid)%string) (employees st)).

(** [SELECT email FROM employees WHERE email = ?] *)
Definition select_email (em : string) (st : Store) : option string :=
  option_map email (find (fun e => (email e =? em)%string) (employees st)).

(** [INSERT INTO employees (...) VALUES (?, ?, ?, ?, ?)], under the PRIMARY
    KEY on [employee_id] and the UNIQUE on [email]. *)
Definition insert_employee (row : Employee) (st : Store) : result Store :=
  if existsb (fun e => (employee_id e =? employee_id row)%string) (employees st)
  then Failed SQLITE_CONSTRAINT
  else if existsb (fun e => (email e =? email row)%string) (employees st)
  then Failed SQLITE_CONSTRAINT
  else Ok (mkStore (employees st ++ [row]) (attendance st) (attendance_seq st)).

(** [DELETE FROM employees WHERE employee_id = ?] with foreign keys on:
    the rows of [attendance] whose parent row goes, go with it. *)
Definition delete_employee (eid : string) (st : Store) : Store :=
  let deleted := filter (fun e => (employee_id e =? eid)%string) (employees st) in
  mkStore
    (filter (fun e => negb (employee_id e =? eid)%string) (employees st))
    (filter (fun a =>
               negb (existsb (fun e => (employee_id e =? att_employee_id a)%string)
                             deleted))
            (attendance st))
    (attendance_seq st).

(** [SELECT id FROM attendance WHERE employee_id = ? AND date = ?] *)
Definition select_attendance_id (eid d : string) (st : Store) : option Z :=
  option_map att_id
    (find (fun a => (att_employee_id a =? eid)%string && (att_date a =? d)%string)
          (attendance st)).

(** The rowid AUTOINCREMENT builds on: the largest one the table has ever
    held. *)
Definition last_rowid (st : Store) : Z :=
  fold_right Z.max (attendance_seq st) (map att_id (attendance st)).

(** [INSERT INTO attendance (employee_id, date, status, created_at)
    VALUES (?, ?, ?, ?)], under UNIQUE(employee_id, date), the foreign key
    to [employees], and AUTOINCREMENT. *)
Definition insert_attendance (eid d stat created : string) (st : Store)
  : result Store :=
  if existsb (fun a => (att_employee_id a =? eid)%string && (att_date a =? d)%string)
             (attendance st)
  then Failed SQLITE_CONSTRAINT
  else if negb (existsb (fun e => (employee_id e =? eid)%string) (employees st))
  then Failed SQLITE_CONSTRAINT
  else if (max_rowid <=? last_rowid st)%Z
  then Failed SQLITE_FULL
  else
    let rowid := (last_rowid st + 1)%Z in
    Ok (mkStore (employees st)
                (attendance st ++ [mkAttendance rowid eid d stat created])
                rowid).

(** [SELECT ... FROM employees ORDER BY created_at DESC] *)
Definition select_employees (st : Store) : list Employee :=
  order_by (fun x y => String.leb (created_at y) (created_at x)) (employees st).

(** [SELECT COUNT( * ) AS total FROM employees] *)
Definition count_employees (st : Store) : nat := List.length (employees st).

(** [SELECT COUNT( * ) AS total FROM attendance] *)
Definition count_attendance (st : Store) : nat := List.length (attendance st).

(** [SELECT COUNT( * ) AS total FROM attendance WHERE status = 'Present'] *)
Definition count_present (st : Store) : nat :=
  List.length (filter (fun a => (att_status a =? "Present")%string) (attendance st)).

(** A row of the per-employee query of the summary. *)
Record PresentRow : Type := mkPresentRow {
  pr_employee_id : string;
  pr_full_name : string;
  present_days : nat
}.

(** [employees e LEFT JOIN attendance a ON e.employee_id = a.employee_id
    AND a.status = 'Present']: an employee without a matching row is kept
    once, with no [a]. *)
Definition left_join (st : Store) : list (Employee * option Attendance) :=
  flat_map
    (fun e =>
       match filter (fun a => (employee_id e =? att_employee_id a)%string
                              && (att_status a =? "Present")%string)
                    (attendance st) with
       | [] => [(e, None)]
       | ms => map (fun a => (e, Some a)) ms
       end)
    (employees st).

(** [COUNT(a.id)]: the rows of the group whose [a.id] is not NULL. *)
Definition count_a_id (g : list (Employee * option Attendance)) : nat :=
  List.length (filter (fun r => match snd r with Some _ => true | None => false end) g).

(** [GROUP BY e.employee_id] with the select list [e.employee_id,
    e.full_name, COUNT(a.id)]: one output row per distinct key; the bare
    column [e.full_name] is read off a row of the group. *)
Definition group_by_employee (rows : list (Employee * option Attendance))
  : list PresentRow :=
  map (fun k =>
         let g := filter (fun r => (employee_id (fst r) =? k)%string) rows in
         mkPresentRow k
                      (match g with
                       | r :: _ => full_name (fst r)
                       | [] => ""
                       end)
                      (count_a_id g))
      (nodup string_dec (map (fun r => employee_id (fst r)) rows)).

(** [ORDER BY present_days DESC, e.full_name ASC] *)
Definition present_order (x y : PresentRow) : bool :=
  (present_days y <? present_days x)%nat
  || ((present_days x =? present_days y)%nat
      && String.leb (pr_full_name x) (pr_full_name y)).

(** Rows tied on both keys come out in the order of the table here; SQL
    does not fix their order, and no statement below does. *)
Definition select_present_by_employee (st : Store) : list PresentRow :=
  order_by present_order (group_by_employee (left_join st)).

(** A conjunct of the WHERE clause the attendance query assembles, with
    its bound parameter. *)
Inductive Cond : Type :=
| EmployeeIs : string -> Cond      (* employee_id = ? *)
| DateGe : string -> Cond          (* date >= ? *)
| DateLe : string -> Cond.         (* date <= ? *)

Definition holds (a : Attendance) (c : Cond) : bool :=
  match c with
  | EmployeeIs eid => (att_employee_id a =? eid)%string
  | DateGe d => String.leb d (att_date a)
  | DateLe d => String.leb (att_date a) d
  end.

(** [SELECT id, employee_id, date, status, created_at FROM attendance
    WHERE c1 AND ... AND cn ORDER BY date DESC] *)
Definition select_attendance (where_ : list Cond) (st : Store) : list Attendance :=
  order_by (fun x y => String.leb (att_date y) (att_date x))
           (filter (fun a => forallb (holds a) where_) (attendance st)).

End Sql.

Import Sql.

(** ** Responses *)

Record Totals : Type := mkTotals {
  total_employees : nat;
  total_attendance : nat;
  total_present : nat
}.

Inductive Body : Type :=
| MessageBody : string -> Body                       (* { message } *)
| ErrorBody : string -> Body                         (* { error } *)
| EmployeesBody : list Employee -> Body              (* { employees } *)
| RecordsBody : list Attendance -> Body              (* { records } *)
| SummaryBody : Totals -> list PresentRow -> Body.   (* { totals, presentByEmployee } *)

Record Response : Type := mkResponse {
  code : nat;
  body : Body
}.

(** [res.json(b)] answers 200; [res.status(c).json(b)] answers [c]. *)
Definition json (b : Body) : Response := mkResponse 200 b.
Definition status_json (c : nat) (b : Body) : Response := mkResponse c b.

(** [total || 0] *)
Definition or_zero (n : nat) : nat := if (n =? 0)%nat then 0%nat else n.

(** ** Request bodies *)

Record EmployeeBody : Type := mkEmployeeBody {
  b_employeeId : JsVal;
  b_fullName : JsVal;
  b_email : JsVal;
  b_department : JsVal
}.

Record AttendanceBody : Type := mkAttendanceBody {
  a_employeeId : JsVal;
  a_date : JsVal;
  a_status : JsVal
}.

(** ** Handlers *)

(** GET /api/employees *)
Definition get_employees (st : Store) : Response :=
  json (EmployeesBody (select_employees st)).

(** GET /api/summary *)
Definition get_summary (st : Store) : Response :=
  let employeesRow := count_employees st in
  let attendanceRow := count_attendance st in
  let presentRow := count_present st in
  let perEmployee := select_present_by_employee st in
  json (SummaryBody
          (mkTotals (or_zero employeesRow) (or_zero attendanceRow) (or_zero presentRow))
          perEmployee).

(** POST /api/employees *)
Definition post_employees (now : string) (b : EmployeeBody) (st : Store)
  : Response * Store :=
  match truthy (b_employeeId b), truthy (b_fullName b),
        truthy (b_email b), truthy (b_department b) with
  | Some employeeId, Some fullName, Some email_, Some department_ =>
      if negb (isValidEmail email_)
      then (status_json 400 (ErrorBody "Email format is invalid."), st)
      else
        match select_employee_id employeeId st with
        | Some _ => (status_json 409 (ErrorBody "Employee ID already exists."), st)
        | None =>
            match select_email email_ st with
            | Some _ => (status_json 409 (ErrorBody "Email already exists."), st)
            | None =>
                match insert_employee
                        (mkEmployee employeeId fullName email_ department_ now) st with
                | Ok st' => (status_json 201 (MessageBody "Employee created."), st')
                | Failed _ =>
                    (status_json 500 (ErrorBody "Failed to create employee."), st)
                end
            end
        end
  | _, _, _, _ => (status_json 400 (ErrorBody "All fields are required."), st)
  end.

(** DELETE /api/employees/:employeeId *)
Definition delete_employees (employeeId : string) (st : Store) : Response * Store :=
  match select_employee_id employeeId st with
  | None => (status_json 404 (ErrorBody "Employee not found."), st)
  | Some _ => (json (MessageBody "Employee deleted."), delete_employee employeeId st)
  end.

(** POST /api/attendance *)
Definition post_attendance (now : string) (b : AttendanceBody) (st : Store)
  : Response * Store :=
  match truthy (a_employeeId b), truthy (a_date b), truthy (a_status b) with
  | Some employeeId, Some date, Some status =>
      if negb (isValidDate date)
      then (status_json 400 (ErrorBody "Date must be in YYYY-MM-DD format."), st)
      else if negb (existsb (String.eqb status) ["Present"; "Absent"])
      then (status_json 400 (ErrorBody "Status must be Present or Absent."), st)
      else
        match select_employee_id employeeId st with
        | None => (status_json 404 (ErrorBody "Employee not found."), st)
        | Some _ =>
            match select_attendance_id employeeId date st with
            | Some _ =>
                (status_json 409
                   (ErrorBody "Attendance already recorded for this date."), st)
            | None =>
                match insert_attendance employeeId date status now st with
                | Ok st' => (status_json 201 (MessageBody "Attendance recorded."), st')
                | Failed _ =>
                    (status_json 500 (ErrorBody "Failed to record attendance."), st)
                end
            end
        end
  | _, _, _ =>
      (status_json 400 (ErrorBody "Employee ID, date, and status are required."), st)
  end.

(** GET /api/employees/:employeeId/attendance *)
Definition get_employee_attendance (employeeId : string) (startDate endDate : JsVal)
                                   (st : Store) : Response :=
  match select_employee_id employeeId st with
  | None => status_json 404 (ErrorBody "Employee not found.")
  | Some _ =>
      let where0 := [EmployeeIs employeeId] in
      match
        (match truthy startDate with
         | Some s =>
             if negb (isValidDate s)
             then inl (status_json 400
                         (ErrorBody "Start date must be in YYYY-MM-DD format."))
             else inr (where0 ++ [DateGe s])
         | None => inr where0
         end)
      with
      | inl early => early
      | inr where1 =>
          match
            (match truthy endDate with
             | Some s =>
                 if negb (isValidDate s)
                 then inl (status_json 400
                             (ErrorBody "End date must be in YYYY-MM-DD format."))
                 else inr (where1 ++ [DateLe s])
             | None => inr where1
             end)
          with
          | inl early => early
          | inr where2 => json (RecordsBody (select_attendance where2 st))
          end
      end
  end.

(** ** The server as a transition system *)

Inductive Request : Type :=
| GetEmployees : Request
| GetSummary : Request
| PostEmployees : string -> EmployeeBody -> Request
| DeleteEmployees : string -> Request
| PostAttendance : string -> AttendanceBody -> Request
| GetEmployeeAttendance : string -> JsVal -> JsVal -> Request.

Definition handle (r : Request) (st : Store) : Response * Store :=
  match r with
  | GetEmployees => (get_employees st, st)
  | GetSummary => (get_summary st, st)
  | PostEmployees now b => post_employees now b st
  | DeleteEmployees eid => delete_employees eid st
  | PostAttendance now b => post_attendance now b st
  | GetEmployeeAttendance eid s e => (get_employee_attendance eid s e st, st)
  end.

(** The store after a sequence of requests, oldest first. *)
Definition run (rs : list Request) (st : Store) : Store :=
  fold_left (fun s r => snd (handle r s)) rs st.

(** ** What the schema promises of a store *)

Definition att_key (a : Attendance) : string * string :=
  (att_employee_id a, att_date a).

Record store_ok (st : Store) : Prop := mk_store_ok {
  (* employee_id TEXT PRIMARY KEY *)
  pk_employees : NoDup (map employee_id (employees st));
  (* email TEXT NOT NULL UNIQUE *)
  uq_email : NoDup (map email (employees st));
  (* id INTEGER PRIMARY KEY AUTOINCREMENT *)
  pk_attendance : NoDup (map att_id (attendance st));
  seq_attendance : forall a, In a (attendance st) -> (att_id a <= attendance_seq st)%Z;
  (* UNIQUE(employee_id, date) *)
  uq_attendance : NoDup (map att_key (attendance st));
  (* FOREIGN KEY (employee_id) REFERENCES employees(employee_id) *)
  fk_attendance :
    forall a, In a (attendance st) ->
              In (att_employee_id a) (map employee_id (employees st))
}.

(** ** Shapes the claims speak of *)

(** Four digits, a hyphen, two digits, a hyphen, two digits: what
    [YYYY-MM-DD] asks of a string, character by character. *)
Definition date_shape (s : string) : Prop :=
  exists y1 y2 y3 y4 m1 m2 d1 d2 : ascii,
    s = String y1 (String y2 (String y3 (String y4 (String "-"
          (String m1 (String m2 (String "-" (String d1 (String d2 "")))))))))
    /\ forallb is_digit [y1; y2; y3; y4; m1; m2; d1; d2] = true.

(** The present days of an employee: the rows of [attendance] that carry
    its id and the status 'Present'. *)
Definition present_count (st : Store) (eid : string) : nat :=
  List.length
    (filter (fun a => (att_employee_id a =? eid)%string
                      && (att_status a =? "Present")%string)
            (attendance st)).

(** The order the summary asks for: more present days first, and among
    equals the smaller name first. *)
Definition present_before (x y : PresentRow) : Prop :=
  (present_days y < present_days x)%nat
  \/ (present_days x = present_days y
      /\ String.leb (pr_full_name x) (pr_full_name y) = true).

(** A date filter counts as supplied when it is truthy; a supplied filter
    is malformed when it is not of the shape YYYY-MM-DD. *)
Definition malformed (v : JsVal) : bool :=
  match truthy v with
  | Some s => negb (isValidDate s)
  | None => false
  end.

(** [date >= startDate] and [date <= endDate], each only when supplied. *)
Definition in_range (startDate endDate : JsVal) (a : Attendance) : bool :=
  match truthy startDate with
  | Some s => String.leb s (att_date a)
  | None => true
  end
  && match truthy endDate with
     | Some s => String.leb (att_date a) s
     | None => true
     end.

(** Later dates first. *)
Definition date_desc (x y : Attendance) : Prop :=
  String.leb (att_date y) (att_date x) = true.

(** The employee row answers the payload field for field. *)
Definition matches_payload (eid name em dept : string) (e : Employee) : bool :=
  (employee_id e =? eid)%string && (full_name e =? name)%string
  && (email e =? em)%string && (department e =? dept)%string.

(** ** Sample data *)

Definition ann : EmployeeBody :=
  mkEmployeeBody (JString "E1") (JString "Ann") (JString "ann@x.com") (JString "Eng").

Definition bob : EmployeeBody :=
  mkEmployeeBody (JString "E2") (JString "Bob") (JString "bob@x.com") (JString "Ops").

Definition ann_jan01 : AttendanceBody :=
  mkAttendanceBody (JString "E1") (JString "2024-01-01") (JString "Present").

(** Ann and Bob on the roster; Ann present on three days of January, Bob
    absent on one. *)
Definition sample_store : Store :=
  run [PostEmployees "2024-01-01T08:00:00.000Z" ann;
       PostEmployees "2024-01-01T08:05:00.000Z" bob;
       PostAttendance "2024-01-01T09:00:00.000Z" ann_jan01;
       PostAttendance "2024-01-15T09:00:00.000Z"
         (mkAttendanceBody (JString "E1") (JString "2024-01-15") (JString "Present"));
       PostAttendance "2024-01-25T09:00:00.000Z"
         (mkAttendanceBody (JString "E1") (JString "2024-01-25") (JString "Present"));
       PostAttendance "2024-01-25T09:01:00.000Z"
         (mkAttendanceBody (JString "E2") (JString "2024-01-25") (JString "Absent"))]
      empty_store.

Definition cy : EmployeeBody :=
  mkEmployeeBody (JString "E3") (JString "Cy") (JString "cy@x.com") (JString "Eng").

(** Two payloads whose emails differ in letter case only. *)
Definition dee_lower : EmployeeBody :=
  mkEmployeeBody (JString "E4") (JString "Dee") (JString "dee@x.com") (JString "Eng").

Definition dee_upper : EmployeeBody :=
  mkEmployeeBody (JString "E5") (JString "Dee") (JString "Dee@X.com") (JString "Eng").

(** What the handlers let into [attendance]: a date of the shape YYYY-MM-DD
    and one of the two statuses. *)
Definition records_valid (st : Store) : Prop :=
  forall a, In a (attendance st) ->
            isValidDate (att_date a) = true
            /\ (att_status a = "Present" \/ att_status a = "Absent").

(** ** Shapes of accepted emails and dates *)

(** Every character of [s] is in the class [p]. *)
Fixpoint all_chars (p : ascii -> bool) (s : string) : bool :=
  match s with
  | EmptyString => true
  | String c s' => p c && all_chars p s'
  end.

(** How often [c] occurs in [s]. *)
Fixpoint count_char (c : ascii) (s : string) : nat :=
  match s with
  | EmptyString => 0
  | String c' s' => (if Ascii.eqb c' c then 1 else 0) + count_char c s'
  end.

(** A run the pattern [[^\s@]+] accepts: not empty, no white space, no
    at-sign. *)
Definition email_part (s : string) : Prop :=
  s <> "" /\ all_chars not_space_at s = true.

(** [local@domain.tld], each of the three a run of [[^\s@]+]. *)
Definition email_shape (s : string) : Prop :=
  exists local domain tld : string,
    s = (local ++ "@" ++ domain ++ "." ++ tld)%string
    /\ email_part local /\ email_part domain /\ email_part tld.

(** A pattern none of whose classes tells a character from its lower-case
    form. *)
Fixpoint case_blind (r : regex) : Prop :=
  match r with
  | Void => True
  | Eps => True
  | Class p => forall c, p (lower_char c) = p c
  | Cat r1 r2 => case_blind r1 /\ case_blind r2
  | Alt r1 r2 => case_blind r1 /\ case_blind r2
  | Star r1 => case_blind r1
  end.

(** The value of a digit character. *)
Definition digit_value (c : ascii) : N := (N_of_ascii c - 48)%N.

(** The day a string of the shape YYYY-MM-DD names, as the number
    YYYYMMDD; 0 for any other string. *)
Definition date_key (s : string) : N :=
  match s with
  | String y1 (String y2 (String y3 (String y4 (String _
      (String m1 (String m2 (String _ (String d1 (String d2 EmptyString))))))))) =>
      (10000000 * digit_value y1 + 1000000 * digit_value y2
       + 100000 * digit_value y3 + 10000 * digit_value y4
       + 1000 * digit_value m1 + 100 * digit_value m2
       + 10 * digit_value d1 + digit_value d2)%N
  | _ => 0%N
  end.

(** What the handlers let into [employees]: an id, a name and a department
    that are not empty, and an email [isValidEmail] accepts. *)
Definition employees_valid (st : Store) : Prop :=
  forall e, In e (employees st) ->
            employee_id e <> "" /\ full_name e <> "" /\ department e <> ""
            /\ isValidEmail (email e) = true.

(** The request is a DELETE /api/employees/[eid]. *)
Definition deletes_employee (eid : string) (r : Request) : bool :=
  match r with
  | DeleteEmployees x => (x =? eid)%string
  | _ => false
  end.

(** * Properties *)

(** ** The regular-expression engine decides the language of its pattern *)

Section RegexFacts.

Lemma append_empty_inv (s1 s2 : string) :
  (s1 ++ s2)%string = "" -> s1 = "" /\ s2 = "".
Proof. destruct s1; simpl; [auto | discriminate]. Qed.

Lemma nullable_sound r : nullable r = true -> Matches r "".
Proof.
  induction r; simpl; intros Hn; try discriminate; auto with regex.
  - apply andb_true_iff in Hn as [H1 H2].
    change "" with ("" ++ "")%string. auto with regex.
  - apply orb_true_iff in Hn as [H1 | H2]; auto with regex.
Qed.

Lemma nullable_complete r s : Matches r s -> s = "" -> nullable r = true.
Proof.
  induction 1; simpl; intros E; auto; try discriminate.
  - apply append_empty_inv in E as [-> ->]. rewrite IHMatches1, IHMatches2; auto.
  - rewrite IHMatches; auto.
  - rewrite IHMatches; auto using orb_true_r.
Qed.

Lemma nullable_correct r : nullable r = true <-> Matches r "".
Proof. split; [apply nullable_sound | intros H; eapply nullable_complete; eauto]. Qed.

Lemma deriv_sound c r : forall s, Matches (deriv c r) s -> Matches r (String c s).
Proof.
  induction r; simpl; intros s H.
  - inversion H.
  - inversion H.
  - destruct (b c) eqn:Hb; inversion H; subst. now constructor.
  - destruct (nullable r1) eqn:Hn.
    + inversion H as [| | | r0 r3 s0 H' | r0 r3 s0 H' | |]; subst.
      * inversion H'; subst.
        change (String c (s1 ++ s2)%string) with (String c s1 ++ s2)%string. auto with regex.
      * change (String c s) with ("" ++ String c s)%string.
        constructor; auto. now apply nullable_sound.
    + inversion H; subst.
      change (String c (s1 ++ s2)%string) with (String c s1 ++ s2)%string. auto with regex.
  - inversion H; subst; auto with regex.
  - inversion H; subst.
    change (String c (s1 ++ s2)%string) with (String c s1 ++ s2)%string. auto with regex.
Qed.

Lemma deriv_complete c r t :
  Matches r t -> forall u, t = String c u -> Matches (deriv c r) u.
Proof.
  induction 1 as [| p c0 Hp | r1 r2 s1 s2 H1 IH1 H2 IH2 | r1 r2 s0 H0 IH0
                 | r1 r2 s0 H0 IH0 | r0 | r0 s1 s2 H1 IH1 H2 IH2];
    simpl; intros u E; try discriminate.
  - injection E as Ec Eu; subst. rewrite Hp. constructor.
  - destruct s1 as [| c1 s1']; simpl in E.
    + subst s2. rewrite (nullable_complete _ _ H1 eq_refl).
      apply MAltR. auto.
    + injection E as Ec Eu; subst.
      destruct (nullable r1); [apply MAltL |]; constructor; auto.
  - auto with regex.
  - auto with regex.
  - destruct s1 as [| c1 s1']; simpl in E.
    + auto.
    + injection E as Ec Eu; subst. constructor; auto.
Qed.

Lemma deriv_correct c r s : Matches (deriv c r) s <-> Matches r (String c s).
Proof. split; [apply deriv_sound | intros H; eapply deriv_complete; eauto]. Qed.

Theorem test_correct r s : test r s = true <-> Matches r s.
Proof.
  revert r. induction s as [| c s IH]; intros r; simpl.
  - apply nullable_correct.
  - rewrite IH. apply deriv_correct.
Qed.

End RegexFacts.

(** ** Validation *)

Ltac invert_matches :=
  repeat match goal with
         | H : Matches (Cat _ _) _ |- _ => inversion H; subst; clear H
         | H : Matches (Class _) _ |- _ => inversion H; subst; clear H
         | H : Matches Eps _ |- _ => inversion H; subst; clear H
         end.

Lemma Matches_cons p c r s :
  p c = true -> Matches r s -> Matches (Cat (Class p) r) (String c s).
Proof.
  intros Hp Hr. change (String c s) with (String c "" ++ s)%string.
  constructor; [now constructor | exact Hr].
Qed.

Lemma date_pattern_shape (s : string) : Matches date_pattern s <-> date_shape s.
Proof.
  unfold date_pattern, date_shape, Lit; simpl. split.
  - intros H. invert_matches.
    repeat match goal with
           | H : Ascii.eqb _ _ = true |- _ => apply Ascii.eqb_eq in H; subst
           end.
    simpl. do 8 eexists. split; [reflexivity |].
    simpl.
    repeat match goal with
           | H : is_digit _ = true |- _ => rewrite H; clear H
           end.
    reflexivity.
  - intros (y1 & y2 & y3 & y4 & m1 & m2 & d1 & d2 & -> & Hd).
    simpl in Hd. rewrite !andb_true_iff in Hd.
    destruct Hd as (Hy1 & Hy2 & Hy3 & Hy4 & Hm1 & Hm2 & Hd1 & Hd2 & _).
    apply (MCat _ _ (String y1 (String y2 (String y3 (String y4 ""))))).
    { repeat (apply Matches_cons; [assumption |]). constructor. }
    apply Matches_cons; [reflexivity |].
    apply (MCat _ _ (String m1 (String m2 ""))).
    { repeat (apply Matches_cons; [assumption |]). constructor. }
    apply Matches_cons; [reflexivity |].
    repeat (apply Matches_cons; [assumption |]). constructor.
Qed.

(** C8. [isValidDate s] is true exactly when [s] is in the language of
    [^\d{4}-\d{2}-\d{2}$], that is when [s] is four digits, a hyphen, two
    digits, a hyphen and two digits; nothing of the calendar is looked at,
    and "2024-02-30" passes. *)
Theorem isValidDate_format_only :
  (forall s, isValidDate s = true <-> Matches date_pattern s)
  /\ (forall s, isValidDate s = true <-> date_shape s)
  /\ isValidDate "2024-02-30" = true.
Proof.
  split; [| split].
  - intros s. apply test_correct.
  - intros s. unfold isValidDate. rewrite test_correct. apply date_pattern_shape.
  - reflexivity.
Qed.

(** ** ORDER BY returns the rows it was given, in order *)

Section OrderByFacts.
Context {A : Type} (le : A -> A -> bool).

Lemma insert_by_perm x l : Permutation (insert_by le x l) (x :: l).
Proof.
  induction l as [| y t IH]; simpl; [reflexivity |].
  destruct (le x y); [reflexivity |].
  rewrite IH. apply perm_swap.
Qed.

Lemma order_by_perm l : Permutation (order_by le l) l.
Proof.
  induction l as [| x t IH]; simpl; [constructor |].
  rewrite insert_by_perm. now constructor.
Qed.

Lemma order_by_In x l : In x (order_by le l) <-> In x l.
Proof.
  split; apply Permutation_in;
    [apply order_by_perm | symmetry; apply order_by_perm].
Qed.

Hypothesis le_total : forall x y, le x y = true \/ le y x = true.
Hypothesis le_trans : forall x y z, le x y = true -> le y z = true -> le x z = true.

Let R (x y : A) : Prop := le x y = true.

Lemma insert_by_sorted x l :
  StronglySorted R l -> StronglySorted R (insert_by le x l).
Proof.
  induction 1 as [| y t Hs IH Hy]; simpl.
  - repeat constructor.
  - destruct (le x y) eqn:Hxy.
    + constructor; [now constructor |].
      constructor; [exact Hxy |].
      eapply Forall_impl; [| exact Hy]. intros z Hz. eapply le_trans; eauto.
    + constructor; [exact IH |].
      eapply Permutation_Forall; [symmetry; apply insert_by_perm |].
      constructor; [| exact Hy].
      destruct (le_total x y) as [E | E]; [congruence | exact E].
Qed.

Lemma order_by_sorted l : StronglySorted R (order_by le l).
Proof.
  induction l as [| x t IH]; simpl; [constructor |].
  now apply insert_by_sorted.
Qed.
End OrderByFacts.

Lemma StronglySorted_impl {A : Type} (R R' : A -> A -> Prop) (l : list A) :
  (forall x y, R x y -> R' x y) -> StronglySorted R l -> StronglySorted R' l.
Proof.
  intros Himp. induction 1 as [| x t Hs IH Hx]; constructor; [assumption |].
  eapply Forall_impl; [| exact Hx]. intros y. apply Himp.
Qed.

Lemma string_leb_refl a : String.leb a a = true.
Proof. destruct (String.leb_total a a); assumption. Qed.

Lemma string_leb_trans a : forall b c,
  String.leb a b = true -> String.leb b c = true -> String.leb a c = true.
Proof.
  unfold String.leb.
  induction a as [| x a IH]; intros [| y b] [| z c]; simpl; try easy.
  unfold Ascii.compare.
  destruct (N.compare_spec (N_of_ascii x) (N_of_ascii y));
    destruct (N.compare_spec (N_of_ascii y) (N_of_ascii z));
    destruct (N.compare_spec (N_of_ascii x) (N_of_ascii z));
    try easy; try lia.
  apply IH.
Qed.

(** ** Lookups *)

Lemma select_employee_id_None eid st :
  select_employee_id eid st = None <-> ~ In eid (map employee_id (employees st)).
Proof.
  unfold select_employee_id.
  destruct (find _ (employees st)) as [e |] eqn:F; simpl.
  - apply find_some in F as [Hin He]. apply String.eqb_eq in He.
    split; [discriminate |]. intros Hn. exfalso. apply Hn.
    apply in_map_iff. eauto.
  - split; [intros _ | reflexivity].
    intros Hin. apply in_map_iff in Hin as (e & He & Hin).
    pose proof (find_none _ _ F e Hin) as Hf. simpl in Hf.
    rewrite He, String.eqb_refl in Hf. discriminate.
Qed.

Lemma select_employee_id_Some eid st x :
  select_employee_id eid st = Some x ->
  x = eid /\ In eid (map employee_id (employees st)).
Proof.
  unfold select_employee_id.
  destruct (find _ (employees st)) as [e |] eqn:F; simpl; [| discriminate].
  intros [= <-]. apply find_some in F as [Hin He]. apply String.eqb_eq in He.
  split; [exact He |]. apply in_map_iff. eauto.
Qed.

Lemma select_employee_id_known eid st :
  In eid (map employee_id (employees st)) -> select_employee_id eid st = Some eid.
Proof.
  intros Hin. destruct (select_employee_id eid st) as [x |] eqn:E.
  - apply select_employee_id_Some in E as [-> _]. reflexivity.
  - apply select_employee_id_None in E. contradiction.
Qed.

Lemma select_email_None em st :
  select_email em st = None <-> ~ In em (map email (employees st)).
Proof.
  unfold select_email.
  destruct (find _ (employees st)) as [e |] eqn:F; simpl.
  - apply find_some in F as [Hin He]. apply String.eqb_eq in He.
    split; [discriminate |]. intros Hn. exfalso. apply Hn.
    apply in_map_iff. eauto.
  - split; [intros _ | reflexivity].
    intros Hin. apply in_map_iff in Hin as (e & He & Hin).
    pose proof (find_none _ _ F e Hin) as Hf. simpl in Hf.
    rewrite He, String.eqb_refl in Hf. discriminate.
Qed.

Lemma select_attendance_id_None eid d st :
  select_attendance_id eid d st = None <->
  ~ In (eid, d) (map att_key (attendance st)).
Proof.
  unfold select_attendance_id.
  destruct (find _ (attendance st)) as [a |] eqn:F; simpl.
  - apply find_some in F as [Hin Ha].
    apply andb_true_iff in Ha as [H1 H2].
    apply String.eqb_eq in H1, H2.
    split; [discriminate |]. intros Hn. exfalso. apply Hn.
    apply in_map_iff. exists a. unfold att_key. rewrite H1, H2. auto.
  - split; [intros _ | reflexivity].
    intros Hin. apply in_map_iff in Hin as (a & Ha & Hin).
    pose proof (find_none _ _ F a Hin) as Hf. simpl in Hf.
    unfold att_key in Ha. injection Ha as H1 H2.
    rewrite H1, H2, !String.eqb_refl in Hf. discriminate.
Qed.

Lemma existsb_employee_id eid l :
  existsb (fun e => (employee_id e =? eid)%string) l = true <->
  In eid (map employee_id l).
Proof.
  rewrite existsb_exists, in_map_iff.
  split; intros (e & H1 & H2); exists e.
  - apply String.eqb_eq in H2. auto.
  - split; [assumption |]. now apply String.eqb_eq.
Qed.

Lemma existsb_email em l :
  existsb (fun e => (email e =? em)%string) l = true <-> In em (map email l).
Proof.
  rewrite existsb_exists, in_map_iff.
  split; intros (e & H1 & H2); exists e.
  - apply String.eqb_eq in H2. auto.
  - split; [assumption |]. now apply String.eqb_eq.
Qed.

Lemma existsb_att_key eid d l :
  existsb (fun a => (att_employee_id a =? eid)%string && (att_date a =? d)%string) l
  = true <-> In (eid, d) (map att_key l).
Proof.
  rewrite existsb_exists, in_map_iff. unfold att_key.
  split; intros (a & H1 & H2); exists a.
  - apply andb_true_iff in H2 as [E1 E2]. apply String.eqb_eq in E1, E2.
    rewrite E1, E2. auto.
  - injection H1 as E1 E2. split; [assumption |].
    rewrite E1, E2, !String.eqb_refl. reflexivity.
Qed.

(** ** Every statement keeps the schema's promises *)

Lemma NoDup_map_snoc {A B : Type} (f : A -> B) (l : list A) (x : A) :
  NoDup (map f l) -> ~ In (f x) (map f l) -> NoDup (map f (l ++ [x])).
Proof.
  intros Hnd Hx. rewrite map_app. simpl.
  eapply Permutation_NoDup; [apply Permutation_cons_append |].
  now constructor.
Qed.

(** Deleting rows keeps a key unique. *)
Lemma NoDup_map_filter {Row Key : Type} (key : Row -> Key) (keep : Row -> bool)
      (rows : list Row) (Huniq : NoDup (map key rows)) :
  NoDup (map key (filter keep rows)).
Proof.
  revert Huniq. induction rows as [| r rest IH]; simpl; intros Huniq.
  { constructor. }
  inversion Huniq as [| ? ? Hr Hrest]; subst.
  destruct (keep r); simpl; [| auto].
  constructor; [| auto].
  intros Hin. apply Hr.
  apply in_map_iff in Hin as (r' & Hkey & Hin). apply filter_In in Hin as [Hin _].
  apply in_map_iff. eauto.
Qed.

Lemma empty_store_ok : store_ok empty_store.
Proof. constructor; simpl; try constructor; intros a []. Qed.

Lemma insert_employee_ok row st st' :
  store_ok st -> insert_employee row st = Ok st' -> store_ok st'.
Proof.
  intros [Hpk Hem Hid Hseq Huq Hfk]. unfold insert_employee.
  destruct (existsb _ (employees st)) eqn:E1; [discriminate |].
  destruct (existsb (fun e => (email e =? email row)%string) (employees st)) eqn:E2;
    [discriminate |].
  intros [= <-]. constructor; simpl; auto.
  - apply NoDup_map_snoc; [assumption |].
    intros Hin. apply existsb_employee_id in Hin. congruence.
  - apply NoDup_map_snoc; [assumption |].
    intros Hin. apply existsb_email in Hin. congruence.
  - intros a Ha. rewrite map_app. apply in_or_app. left. auto.
Qed.

Lemma delete_employee_ok eid st : store_ok st -> store_ok (delete_employee eid st).
Proof.
  intros [Hpk Hem Hid Hseq Huq Hfk]. unfold delete_employee.
  constructor; simpl; try (apply NoDup_map_filter; assumption).
  - intros a Ha. apply filter_In in Ha as [Ha _]. auto.
  - intros a Ha. apply filter_In in Ha as [Ha Hkeep].
    specialize (Hfk a Ha). apply in_map_iff in Hfk as (e & He & Hin).
    apply in_map_iff. exists e. split; [assumption |].
    apply filter_In. split; [assumption |].
    apply negb_true_iff. apply negb_true_iff in Hkeep.
    destruct (employee_id e =? eid)%string eqn:Ee; [| reflexivity].
    exfalso. rewrite <- not_true_iff_false in Hkeep. apply Hkeep.
    apply existsb_exists. exists e. split.
    + apply filter_In. auto.
    + rewrite He. apply String.eqb_refl.
Qed.

Lemma last_rowid_seq st : (attendance_seq st <= last_rowid st)%Z.
Proof.
  unfold last_rowid. induction (map att_id (attendance st)); simpl; lia.
Qed.

Lemma last_rowid_bound st a :
  In a (attendance st) -> (att_id a <= last_rowid st)%Z.
Proof.
  unfold last_rowid. intros Hin. apply (in_map att_id) in Hin.
  induction (map att_id (attendance st)) as [| x t IH]; simpl; [contradiction |].
  destruct Hin as [-> | Hin]; [lia |]. specialize (IH Hin). lia.
Qed.

Lemma insert_attendance_ok eid d stat created st st' :
  store_ok st -> insert_attendance eid d stat created st = Ok st' -> store_ok st'.
Proof.
  intros [Hpk Hem Hid Hseq Huq Hfk]. unfold insert_attendance.
  destruct (existsb _ (attendance st)) eqn:E1; [discriminate |].
  destruct (existsb _ (employees st)) eqn:E2; simpl; [| discriminate].
  destruct (max_rowid <=? last_rowid st)%Z; [discriminate |].
  intros [= <-]. constructor; simpl; auto.
  - apply NoDup_map_snoc; [assumption |]. simpl.
    intros Hin. apply in_map_iff in Hin as (a & Ha & Hin).
    pose proof (last_rowid_bound st a Hin). lia.
  - intros a Ha. apply in_app_or in Ha as [Ha | [<- | []]]; simpl.
    + pose proof (last_rowid_bound st a Ha). lia.
    + lia.
  - apply NoDup_map_snoc; [assumption |].
    intros Hin. apply (existsb_att_key eid d) in Hin. congruence.
  - intros a Ha. apply in_app_or in Ha as [Ha | [<- | []]]; simpl; auto.
    now apply existsb_employee_id.
Qed.

Lemma post_employees_ok now b st :
  store_ok st -> store_ok (snd (post_employees now b st)).
Proof.
  intros Hok. unfold post_employees.
  repeat match goal with
         | |- context [match ?x with _ => _ end] => destruct x eqn:?; simpl; auto
         end.
  eauto using insert_employee_ok.
Qed.

Lemma delete_employees_ok eid st :
  store_ok st -> store_ok (snd (delete_employees eid st)).
Proof.
  intros Hok. unfold delete_employees.
  destruct (select_employee_id eid st); simpl; auto using delete_employee_ok.
Qed.

Lemma post_attendance_ok now b st :
  store_ok st -> store_ok (snd (post_attendance now b st)).
Proof.
  intros Hok. unfold post_attendance.
  repeat match goal with
         | |- context [match ?x with _ => _ end] => destruct x eqn:?; simpl; auto
         end.
  eauto using insert_attendance_ok.
Qed.

Lemma handle_ok r st : store_ok st -> store_ok (snd (handle r st)).
Proof.
  destruct r; simpl; auto using post_employees_ok, delete_employees_ok,
                      post_attendance_ok.
Qed.

Lemma run_ok rs : forall st, store_ok st -> store_ok (run rs st).
Proof.
  unfold run. induction rs as [| r rs IH]; simpl; intros st Hok; [assumption |].
  apply IH. now apply handle_ok.
Qed.

(** Whatever requests the server has answered since [initDb] on a fresh
    file, its store satisfies the schema. *)
Corollary reachable_ok rs : store_ok (run rs empty_store).
Proof. apply run_ok, empty_store_ok. Qed.

Lemma sample_store_ok : store_ok sample_store.
Proof. unfold sample_store. apply reachable_ok. Qed.

(** ** Recording attendance *)

Lemma handle_attendance_origin r st a :
  In a (attendance (snd (handle r st))) ->
  In a (attendance st) \/ (attendance_seq st < att_id a)%Z.
Proof.
  destruct r as [| | now b | eid | now b | eid s e]; simpl; auto.
  - unfold post_employees.
    repeat match goal with
           | |- context [match ?x with _ => _ end] => destruct x eqn:?; simpl; auto
           end.
    unfold insert_employee in *.
    repeat match goal with
           | H : context [if ?x then _ else _] |- _ => destruct x; try discriminate
           end.
    match goal with H : Ok _ = Ok _ |- _ => injection H as <- end. auto.
  - unfold delete_employees. destruct (select_employee_id eid st); simpl; auto.
    intros Ha. apply filter_In in Ha as [Ha _]. auto.
  - unfold post_attendance.
    repeat match goal with
           | |- context [match ?x with _ => _ end] => destruct x eqn:?; simpl; auto
           end.
    unfold insert_attendance in *.
    repeat match goal with
           | H : context [if ?x then _ else _] |- _ => destruct x; try discriminate
           end.
    match goal with H : Ok _ = Ok _ |- _ => injection H as <- end. simpl.
    intros Ha. apply in_app_or in Ha as [Ha | [<- | []]]; auto.
    right. simpl. pose proof (last_rowid_seq st). lia.
Qed.

Lemma handle_seq_mono r st :
  (attendance_seq st <= attendance_seq (snd (handle r st)))%Z.
Proof.
  destruct r as [| | now b | eid | now b | eid s e]; simpl; try lia.
  - unfold post_employees.
    repeat match goal with
           | |- context [match ?x with _ => _ end] => destruct x eqn:?; simpl; try lia
           end.
    unfold insert_employee in *.
    repeat match goal with
           | H : context [if ?x then _ else _] |- _ => destruct x; try discriminate
           end.
    match goal with H : Ok _ = Ok _ |- _ => injection H as <- end. simpl. lia.
  - unfold delete_employees. destruct (select_employee_id eid st); simpl; lia.
  - unfold post_attendance.
    repeat match goal with
           | |- context [match ?x with _ => _ end] => destruct x eqn:?; simpl; try lia
           end.
    unfold insert_attendance in *.
    repeat match goal with
           | H : context [if ?x then _ else _] |- _ => destruct x; try discriminate
           end.
    match goal with H : Ok _ = Ok _ |- _ => injection H as <- end. simpl.
    pose proof (last_rowid_seq st). lia.
Qed.

(** A row of [attendance] found after some requests was there before them
    or received a rowid no row had had. *)
Lemma run_attendance_origin rs : forall st a,
  In a (attendance (run rs st)) ->
  In a (attendance st) \/ (attendance_seq st < att_id a)%Z.
Proof.
  unfold run. induction rs as [| r rs IH]; simpl; intros st a Ha; [auto |].
  apply IH in Ha as [Ha | Ha].
  - now apply (handle_attendance_origin r).
  - right. pose proof (handle_seq_mono r st). lia.
Qed.

Lemma handle_records_valid r st :
  records_valid st -> records_valid (snd (handle r st)).
Proof.
  intros Hv. destruct r as [| | now b | eid | now b | eid s e]; simpl; auto.
  - unfold post_employees.
    repeat match goal with
           | |- context [match ?x with _ => _ end] => destruct x eqn:?; simpl; auto
           end.
    unfold insert_employee in *.
    repeat match goal with
           | H : context [if ?x then _ else _] |- _ => destruct x; try discriminate
           end.
    match goal with H : Ok _ = Ok _ |- _ => injection H as <- end. exact Hv.
  - unfold delete_employees. destruct (select_employee_id eid st); simpl; auto.
    intros a Ha. apply filter_In in Ha as [Ha _]. auto.
  - unfold post_attendance.
    destruct (truthy (a_employeeId b)) as [eid |]; simpl; auto.
    destruct (truthy (a_date b)) as [d |]; simpl; auto.
    destruct (truthy (a_status b)) as [s |]; simpl; auto.
    destruct (isValidDate d) eqn:Hd; simpl; auto.
    destruct (String.eqb_spec s "Present") as [Hp | _]; simpl;
      [| destruct (String.eqb_spec s "Absent") as [Ha | _]; simpl; auto];
      (destruct (select_employee_id eid st); simpl; auto;
       destruct (select_attendance_id eid d st); simpl; auto;
       destruct (insert_attendance eid d s now st) as [st' |] eqn:Hins; simpl; auto;
       unfold insert_attendance in Hins;
       repeat match type of Hins with
              | context [if ?x then _ else _] => destruct x; try discriminate
              end;
       injection Hins as <-; simpl;
       intros a Hin; apply in_app_or in Hin as [Hin | [<- | []]]; simpl; auto).
Qed.

(** Every row the server has stored since [initDb] on a fresh file has a
    well-formed date and one of the two statuses. *)
Lemma reachable_records_valid rs : records_valid (run rs empty_store).
Proof.
  assert (H : forall st, records_valid st -> records_valid (run rs st)).
  { unfold run. induction rs as [| r rs IH]; simpl; intros st Hv; [assumption |].
    apply IH. now apply handle_records_valid. }
  apply H. intros a [].
Qed.

(** C1, as the code has it. A request to record attendance that names an
    (employeeId, date) pair already on record leaves the store as it is; it
    is answered 409 Conflict when it passes the checks that come first (a
    date of the shape YYYY-MM-DD, a status that is Present or Absent) and
    400 otherwise; and whatever requests follow, no two rows of
    [attendance] ever share an (employee_id, date) pair. *)
Theorem record_existing_pair now b st eid d :
  store_ok st ->
  truthy (a_employeeId b) = Some eid ->
  truthy (a_date b) = Some d ->
  In (eid, d) (map att_key (attendance st)) ->
  snd (post_attendance now b st) = st
  /\ (isValidDate d = true ->
      a_status b = JString "Present" \/ a_status b = JString "Absent" ->
      fst (post_attendance now b st)
      = status_json 409 (ErrorBody "Attendance already recorded for this date."))
  /\ (~ (isValidDate d = true
         /\ (a_status b = JString "Present" \/ a_status b = JString "Absent")) ->
      code (fst (post_attendance now b st)) = 400%nat)
  /\ (forall rs, NoDup (map att_key (attendance (run rs st)))).
Proof.
  intros Hok He Hd Hin.
  assert (Hknown : select_employee_id eid st = Some eid).
  { apply select_employee_id_known.
    apply in_map_iff in Hin as (a & Ha & Hin). injection Ha as <- _.
    now apply (fk_attendance st Hok). }
  assert (Hdup : exists i, select_attendance_id eid d st = Some i).
  { destruct (select_attendance_id eid d st) as [i |] eqn:E; [eauto |].
    apply select_attendance_id_None in E. contradiction. }
  destruct Hdup as [i Hdup].
  unfold post_attendance. rewrite He, Hd.
  split; [| split; [| split]].
  - destruct (truthy (a_status b)); simpl; [| reflexivity].
    destruct (isValidDate d); simpl; [| reflexivity].
    destruct (_ || _); simpl; [| reflexivity].
    rewrite Hknown, Hdup. reflexivity.
  - intros Hv Hs. rewrite Hv.
    destruct Hs as [-> | ->]; simpl; rewrite Hknown, Hdup; reflexivity.
  - intros Hnot.
    destruct (a_status b) as [| | s] eqn:Es; simpl; try reflexivity.
    destruct (String.eqb_spec s "") as [_ | _]; simpl; [reflexivity |].
    destruct (isValidDate d) eqn:Hv; simpl; [| reflexivity].
    destruct (String.eqb_spec s "Present") as [-> | _];
      [exfalso; apply Hnot; auto |].
    destruct (String.eqb_spec s "Absent") as [-> | _];
      [exfalso; apply Hnot; auto |].
    reflexivity.
  - intros rs. apply uq_attendance. now apply run_ok.
Qed.

(** The claim C1 as worded fails: with Ann on record for 2024-01-01, a
    request for the same employee and date whose status is neither Present
    nor Absent is answered 400, not 409. *)
Lemma record_existing_pair_bad_status :
  let b := mkAttendanceBody (JString "E1") (JString "2024-01-01") (JString "Late") in
  store_ok sample_store
  /\ In ("E1", "2024-01-01") (map att_key (attendance sample_store))
  /\ fst (post_attendance "2024-01-02T09:00:00.000Z" b sample_store)
     = status_json 400 (ErrorBody "Status must be Present or Absent.")
  /\ code (fst (post_attendance "2024-01-02T09:00:00.000Z" b sample_store)) <> 409%nat.
Proof.
  split; [apply sample_store_ok |].
  split; [vm_compute; auto |].
  split; [reflexivity | vm_compute; discriminate].
Qed.

Lemma record_existing_pair_witness :
  snd (post_attendance "2024-01-02T09:00:00.000Z" ann_jan01 sample_store) = sample_store
  /\ (isValidDate "2024-01-01" = true ->
      a_status ann_jan01 = JString "Present" \/ a_status ann_jan01 = JString "Absent" ->
      fst (post_attendance "2024-01-02T09:00:00.000Z" ann_jan01 sample_store)
      = status_json 409 (ErrorBody "Attendance already recorded for this date."))
  /\ (~ (isValidDate "2024-01-01" = true
         /\ (a_status ann_jan01 = JString "Present"
             \/ a_status ann_jan01 = JString "Absent")) ->
      code (fst (post_attendance "2024-01-02T09:00:00.000Z" ann_jan01 sample_store))
      = 400%nat)
  /\ (forall rs, NoDup (map att_key (attendance (run rs sample_store)))).
Proof.
  apply (record_existing_pair "2024-01-02T09:00:00.000Z" ann_jan01 sample_store
                              "E1" "2024-01-01").
  - apply sample_store_ok.
  - reflexivity.
  - reflexivity.
  - vm_compute. auto.
Defined.

(** ** The summary *)

Section Summary.
Variable st : Store.

(** The rows the left join makes of one employee. *)
Let joined (e : Employee) : list (Employee * option Attendance) :=
  match filter (fun a => (employee_id e =? att_employee_id a)%string
                         && (att_status a =? "Present")%string)
               (attendance st) with
  | [] => [(e, None)]
  | ms => map (fun a => (e, Some a)) ms
  end.

Let key (r : Employee * option Attendance) : string := employee_id (fst r).

Lemma joined_fst e r : In r (joined e) -> fst r = e.
Proof.
  unfold joined. destruct (filter _ _) as [| a ms]; simpl.
  - intros [<- | []]. reflexivity.
  - intros [<- | Hin]; [reflexivity |].
    apply in_map_iff in Hin as (a' & <- & _). reflexivity.
Qed.

Lemma joined_nonempty e : joined e <> [].
Proof. unfold joined. destruct (filter _ _); discriminate. Qed.

Lemma joined_count e : count_a_id (joined e) = present_count st (employee_id e).
Proof.
  unfold joined, count_a_id, present_count.
  rewrite (filter_ext (fun a => (att_employee_id a =? employee_id e)%string
                                && (att_status a =? "Present")%string)
                      (fun a => (employee_id e =? att_employee_id a)%string
                                && (att_status a =? "Present")%string)).
  2:{ intros a. now rewrite String.eqb_sym. }
  destruct (filter _ (attendance st)) as [| a ms]; [reflexivity |].
  set (l := a :: ms). clearbody l.
  induction l as [| x t IH]; simpl; [reflexivity | now rewrite IH].
Qed.

Lemma left_join_cons e es :
  flat_map joined (e :: es) = joined e ++ flat_map joined es.
Proof. reflexivity. Qed.

Lemma left_join_keys es r :
  In r (flat_map joined es) -> In (key r) (map employee_id es).
Proof.
  intros Hin. apply in_flat_map in Hin as (e & He & Hr).
  apply joined_fst in Hr. unfold key. rewrite Hr. now apply in_map.
Qed.

Lemma filter_key_joined_same e :
  filter (fun r => (key r =? employee_id e)%string) (joined e) = joined e.
Proof.
  assert (H : forall r, In r (joined e) -> fst r = e) by apply joined_fst.
  induction (joined e) as [| r t IH]; simpl; [reflexivity |].
  unfold key at 1. rewrite (H r (or_introl eq_refl)), String.eqb_refl.
  f_equal. apply IH. intros r' Hr'. apply H. now right.
Qed.

Lemma filter_key_none k rows :
  (forall r, In r rows -> key r <> k) ->
  filter (fun r => (key r =? k)%string) rows = [].
Proof.
  induction rows as [| r t IH]; simpl; intros H; [reflexivity |].
  destruct (String.eqb_spec (key r) k) as [E | _].
  - exfalso. now apply (H r (or_introl eq_refl)).
  - apply IH. intros r' Hr'. apply H. now right.
Qed.

Lemma nodup_block k l1 l2 :
  l1 <> [] -> (forall x, In x l1 -> x = k) -> ~ In k l2 ->
  nodup string_dec (l1 ++ l2) = k :: nodup string_dec l2.
Proof.
  induction l1 as [| x t IH]; intros Hne Hall Hk; [congruence |].
  assert (x = k) as -> by (apply Hall; now left).
  destruct t as [| y t'].
  - simpl. destruct (in_dec string_dec k l2); [contradiction | reflexivity].
  - change ((k :: y :: t') ++ l2) with (k :: ((y :: t') ++ l2)).
    assert (y = k) as -> by (apply Hall; right; now left).
    cbn [nodup]. destruct (in_dec string_dec k ((k :: t') ++ l2)) as [_ | Hn].
    + apply IH; [discriminate | | assumption].
      intros z Hz. apply Hall. now right.
    + exfalso. apply Hn. now left.
Qed.

(** Under the primary key of [employees], grouping the join by employee
    id gives one row per employee, in the order of the table. *)
Lemma group_by_employee_rows es :
  NoDup (map employee_id es) ->
  group_by_employee (flat_map joined es)
  = map (fun e => mkPresentRow (employee_id e) (full_name e)
                               (present_count st (employee_id e))) es.
Proof.
  unfold group_by_employee.
  induction es as [| e es IH]; intros Hnd; [reflexivity |].
  inversion Hnd as [| ? ? Hfresh Hnd']; subst.
  rewrite left_join_cons, map_app.
  rewrite (nodup_block (employee_id e)).
  - cbn [map]. f_equal.
    + rewrite filter_app.
      change (fun r => (employee_id (fst r) =? employee_id e)%string)
        with (fun r => (key r =? employee_id e)%string).
      rewrite filter_key_joined_same, filter_key_none.
      * rewrite app_nil_r, joined_count.
        pose proof (joined_nonempty e) as Hne.
        pose proof (joined_fst e) as Hfst.
        destruct (joined e) as [| r t]; [congruence |].
        rewrite (Hfst r (or_introl eq_refl)). reflexivity.
      * intros r Hr E. apply Hfresh. rewrite <- E. now apply left_join_keys.
    + rewrite <- (IH Hnd'). apply map_ext_in.
      intros k Hk. apply nodup_In in Hk.
      apply in_map_iff in Hk as (r & <- & Hr).
      rewrite filter_app.
      change (fun r0 => (employee_id (fst r0) =? employee_id (fst r))%string)
        with (fun r0 => (key r0 =? key r)%string).
      rewrite (filter_key_none (key r) (joined e)); [reflexivity |].
      intros r' Hr' E. apply joined_fst in Hr'. apply Hfresh.
      unfold key in E. rewrite Hr' in E. rewrite E.
      now apply left_join_keys.
  - intros E. apply map_eq_nil in E. now apply joined_nonempty in E.
  - intros k Hk. apply in_map_iff in Hk as (r & <- & Hr).
    apply joined_fst in Hr. now rewrite Hr.
  - intros Hin. apply in_map_iff in Hin as (r & E & Hr).
    apply Hfresh. rewrite <- E. now apply left_join_keys.
Qed.

Lemma left_join_unfold : left_join st = flat_map joined (employees st).
Proof. reflexivity. Qed.
End Summary.

Lemma present_order_total x y : present_order x y = true \/ present_order y x = true.
Proof.
  unfold present_order.
  destruct (Nat.lt_trichotomy (present_days x) (present_days y)) as [H | [H | H]].
  - right. apply Nat.ltb_lt in H. now rewrite H.
  - rewrite H, Nat.eqb_refl, Nat.ltb_irrefl. simpl. apply String.leb_total.
  - left. apply Nat.ltb_lt in H. now rewrite H.
Qed.

Lemma present_order_spec x y : present_order x y = true <-> present_before x y.
Proof.
  unfold present_order, present_before.
  rewrite orb_true_iff, andb_true_iff, Nat.ltb_lt, Nat.eqb_eq. reflexivity.
Qed.

Lemma present_order_trans x y z :
  present_order x y = true -> present_order y z = true -> present_order x z = true.
Proof.
  rewrite !present_order_spec. unfold present_before.
  intros [H1 | [H1 L1]] [H2 | [H2 L2]]; try (left; lia).
  right. split; [lia |]. eapply string_leb_trans; eauto.
Qed.

Lemma select_present_by_employee_perm st :
  store_ok st ->
  Permutation (select_present_by_employee st)
              (map (fun e => mkPresentRow (employee_id e) (full_name e)
                                          (present_count st (employee_id e)))
                   (employees st)).
Proof.
  intros Hok. unfold select_present_by_employee.
  rewrite order_by_perm, left_join_unfold, group_by_employee_rows; [reflexivity |].
  apply (pk_employees st Hok).
Qed.

(** C2. The [presentByEmployee] list of the summary has one entry per
    employee of the store and no other: it is a rearrangement of the roster,
    each employee with its name and the number of its 'Present' records (0
    when it has none), no id twice; and it is ordered by [present_days]
    descending, then by [full_name] ascending. *)
Theorem summary_present_by_employee st :
  store_ok st ->
  exists totals rows,
    get_summary st = json (SummaryBody totals rows)
    /\ Permutation rows
                   (map (fun e => mkPresentRow (employee_id e) (full_name e)
                                               (present_count st (employee_id e)))
                        (employees st))
    /\ Permutation (map pr_employee_id rows) (map employee_id (employees st))
    /\ NoDup (map pr_employee_id rows)
    /\ (forall r, In r rows ->
                  (forall a, In a (attendance st) ->
                             att_employee_id a = pr_employee_id r ->
                             att_status a <> "Present") ->
                  present_days r = 0%nat)
    /\ StronglySorted present_before rows.
Proof.
  intros Hok. unfold get_summary. do 2 eexists. split; [reflexivity |].
  pose proof (select_present_by_employee_perm st Hok) as Hperm.
  assert (Hids : Permutation (map pr_employee_id (select_present_by_employee st))
                             (map employee_id (employees st))).
  { rewrite Hperm, map_map. simpl. reflexivity. }
  split; [exact Hperm |].
  split; [exact Hids |].
  split; [| split].
  - eapply Permutation_NoDup; [symmetry; exact Hids |]. apply (pk_employees st Hok).
  - intros r Hr Hnone.
    eapply Permutation_in in Hr; [| exact Hperm].
    apply in_map_iff in Hr as (e & <- & _). simpl in *.
    unfold present_count.
    rewrite (proj2 (length_zero_iff_nil _)); [reflexivity |].
    destruct (filter _ (attendance st)) as [| a t] eqn:F; [reflexivity |].
    assert (Ha : In a (filter (fun a => (att_employee_id a =? employee_id e)%string
                                        && (att_status a =? "Present")%string)
                              (attendance st))) by (rewrite F; now left).
    apply filter_In in Ha as [Ha Hc]. apply andb_true_iff in Hc as [E1 E2].
    apply String.eqb_eq in E1, E2. exfalso. exact (Hnone a Ha E1 E2).
  - unfold select_present_by_employee.
    eapply StronglySorted_impl;
      [| apply (order_by_sorted present_order present_order_total present_order_trans)].
    intros x y. apply present_order_spec.
Qed.

Lemma or_zero_id n : or_zero n = n.
Proof. unfold or_zero. destruct (Nat.eqb_spec n 0); congruence. Qed.

Lemma list_sum_perm l l' : Permutation l l' -> list_sum l = list_sum l'.
Proof. induction 1; simpl; lia. Qed.

(** Under a primary key, exactly one row carries a key that occurs. *)
Lemma one_row_per_key k (es : list Employee) :
  NoDup (map employee_id es) ->
  In k (map employee_id es) ->
  list_sum (map (fun e => if (k =? employee_id e)%string then 1 else 0)%nat es) = 1%nat.
Proof.
  induction es as [| e es IH]; simpl; intros Hnd Hin; [contradiction |].
  inversion Hnd as [| ? ? Hfresh Hnd']; subst.
  destruct (String.eqb_spec k (employee_id e)) as [-> | Hne].
  - f_equal. clear IH Hin Hnd Hnd'.
    induction es as [| e' es IH]; simpl; [reflexivity |].
    destruct (String.eqb_spec (employee_id e) (employee_id e')) as [E | _].
    + exfalso. apply Hfresh. left. now symmetry.
    + apply IH. intros H. apply Hfresh. now right.
  - destruct Hin as [E | Hin]; [congruence |]. simpl. auto.
Qed.

Lemma no_row_sum (es : list Employee) :
  list_sum (map (fun _ => 0%nat) es) = 0%nat.
Proof. induction es; simpl; auto. Qed.

(** Summing the per-employee counts over the roster counts each 'Present'
    record once: its employee exists (foreign key) and is one (primary
    key). *)
Lemma present_counts_sum (es : list Employee) (att : list Attendance) :
  NoDup (map employee_id es) ->
  (forall a, In a att -> In (att_employee_id a) (map employee_id es)) ->
  list_sum (map (fun e => List.length
                            (filter (fun a => (att_employee_id a =? employee_id e)%string
                                              && (att_status a =? "Present")%string)
                                    att)) es)
  = List.length (filter (fun a => (att_status a =? "Present")%string) att).
Proof.
  intros Hnd. induction att as [| a att IH]; intros Hfk; simpl.
  - apply no_row_sum.
  - assert (IH' := IH (fun a' H => Hfk a' (or_intror H))). clear IH.
    assert (Hsplit :
      list_sum (map (fun e => List.length
                       (if (att_employee_id a =? employee_id e)%string
                           && (att_status a =? "Present")%string
                        then a :: filter (fun a0 =>
                                            (att_employee_id a0 =? employee_id e)%string
                                            && (att_status a0 =? "Present")%string) att
                        else filter (fun a0 =>
                                       (att_employee_id a0 =? employee_id e)%string
                                       && (att_status a0 =? "Present")%string) att)) es)
      = (list_sum (map (fun e => if (att_employee_id a =? employee_id e)%string
                                    && (att_status a =? "Present")%string
                                 then 1 else 0) es)
         + list_sum (map (fun e => List.length
                            (filter (fun a0 =>
                                       (att_employee_id a0 =? employee_id e)%string
                                       && (att_status a0 =? "Present")%string) att)) es))%nat).
    { clear. induction es as [| e es IHes]; simpl; [reflexivity |].
      rewrite IHes. destruct (_ && _); simpl; lia. }
    rewrite Hsplit, IH'. clear Hsplit IH'.
    destruct (att_status a =? "Present")%string eqn:Hp; simpl.
    + rewrite (map_ext _ (fun e => if (att_employee_id a =? employee_id e)%string
                                   then 1%nat else 0%nat)).
      * rewrite one_row_per_key; [reflexivity | assumption |]. apply Hfk. now left.
      * intros e. now rewrite andb_true_r.
    + rewrite (map_ext _ (fun _ => 0%nat)).
      * now rewrite no_row_sum.
      * intros e. now rewrite andb_false_r.
Qed.

(** C3. In the summary, [totals.present], the number of attendance records
    whose status is 'Present', is the sum of the [present_days] of the
    entries of [presentByEmployee]. *)
Theorem summary_present_total st :
  store_ok st ->
  exists totals rows,
    get_summary st = json (SummaryBody totals rows)
    /\ total_present totals
       = List.length (filter (fun a => (att_status a =? "Present")%string)
                             (attendance st))
    /\ total_present totals = list_sum (map present_days rows).
Proof.
  intros Hok. unfold get_summary. do 2 eexists. split; [reflexivity |].
  simpl. rewrite or_zero_id. split; [reflexivity |].
  rewrite (list_sum_perm _ _
             (Permutation_map present_days (select_present_by_employee_perm st Hok))).
  rewrite map_map. simpl. unfold present_count, count_present.
  symmetry. apply present_counts_sum.
  - apply (pk_employees st Hok).
  - apply (fk_attendance st Hok).
Qed.

(** ** Querying attendance *)

(** A 200 answer of the attendance query lists rows of the table. *)
Lemma query_records_stored eid s e st recs :
  get_employee_attendance eid s e st = json (RecordsBody recs) ->
  forall a, In a recs -> In a (attendance st) /\ att_employee_id a = eid.
Proof.
  unfold get_employee_attendance, select_attendance, json, status_json.
  destruct (select_employee_id eid st); [| discriminate].
  destruct (truthy s) as [s' |]; [destruct (isValidDate s'); simpl |];
    try discriminate;
    (destruct (truthy e) as [e' |]; [destruct (isValidDate e'); simpl |];
     try discriminate);
    intros [= <-] a Ha; apply order_by_In in Ha; apply filter_In in Ha as [Ha Hc];
    simpl in Hc; apply andb_true_iff in Hc as [Hc _]; apply String.eqb_eq in Hc; auto.
Qed.

(** Without a malformed filter, the query of a known employee answers the
    rows of that employee within the bounds supplied, sorted. *)
Lemma query_known_records eid s e st :
  In eid (map employee_id (employees st)) ->
  malformed s = false -> malformed e = false ->
  get_employee_attendance eid s e st
  = json (RecordsBody
            (order_by (fun x y => String.leb (att_date y) (att_date x))
                      (filter (fun a => (att_employee_id a =? eid)%string
                                        && in_range s e a)
                              (attendance st)))).
Proof.
  intros Hknown Hs He.
  unfold get_employee_attendance, select_attendance, malformed, in_range in *.
  rewrite (select_employee_id_known _ _ Hknown).
  destruct (truthy s) as [s' |]; [rewrite Hs |];
    (destruct (truthy e) as [e' |]; [rewrite He |]);
    simpl; do 3 f_equal; apply filter_ext; intros a;
    repeat match goal with |- context [String.leb ?x ?y] => destruct (String.leb x y) end;
    destruct (att_employee_id a =? eid)%string; reflexivity.
Qed.

(** ** Deleting an employee *)

Lemma delete_employee_attendance eid st :
  In eid (map employee_id (employees st)) ->
  attendance (delete_employee eid st)
  = filter (fun a => negb (att_employee_id a =? eid)%string) (attendance st).
Proof.
  intros Hin. unfold delete_employee; simpl. apply filter_ext. intros a. f_equal.
  destruct (String.eqb_spec (att_employee_id a) eid) as [E | Hne].
  - apply existsb_exists. apply in_map_iff in Hin as (e0 & He0 & Hin0).
    exists e0. split.
    + apply filter_In. split; [assumption |]. now apply String.eqb_eq.
    + apply String.eqb_eq. congruence.
  - apply not_true_iff_false. intros H.
    apply existsb_exists in H as (e0 & Hin0 & He0).
    apply filter_In in Hin0 as [_ E0]. apply String.eqb_eq in E0, He0. congruence.
Qed.

(** C4. Deleting an unknown employee answers 404 and changes nothing.
    Deleting a known one answers 200, removes its row and, by the cascade,
    every attendance row that refers to it: the list of employees is the
    former one without that employee, and no attendance query, right away or
    after any further requests, returns one of the rows it had. *)
Theorem delete_employee_cascades eid st :
  store_ok st ->
  (~ In eid (map employee_id (employees st)) ->
   delete_employees eid st = (status_json 404 (ErrorBody "Employee not found."), st))
  /\ (In eid (map employee_id (employees st)) ->
      let st' := snd (delete_employees eid st) in
      fst (delete_employees eid st) = json (MessageBody "Employee deleted.")
      /\ employees st' = filter (fun e => negb (employee_id e =? eid)%string) (employees st)
      /\ attendance st'
         = filter (fun a => negb (att_employee_id a =? eid)%string) (attendance st)
      /\ (exists l, get_employees st' = json (EmployeesBody l)
                    /\ forall e, In e l <-> In e (employees st) /\ employee_id e <> eid)
      /\ (forall rs eid' s e recs,
             get_employee_attendance eid' s e (run rs st') = json (RecordsBody recs) ->
             forall a, In a (attendance st) -> att_employee_id a = eid -> ~ In a recs)).
Proof.
  intros Hok. split.
  - intros Hn. unfold delete_employees.
    now rewrite (proj2 (select_employee_id_None eid st) Hn).
  - intros Hin. unfold delete_employees.
    rewrite (select_employee_id_known _ _ Hin). cbn [fst snd].
    split; [reflexivity |]. split; [reflexivity |].
    split; [now apply delete_employee_attendance |]. split.
    + eexists. split; [reflexivity |]. intros e0.
      unfold select_employees. rewrite order_by_In. simpl. rewrite filter_In.
      rewrite negb_true_iff, String.eqb_neq. reflexivity.
    + intros rs eid' s e recs Hq a Ha Heid Hrec.
      apply (query_records_stored _ _ _ _ _ Hq) in Hrec as [Hrec _].
      apply run_attendance_origin in Hrec as [Hrec | Hrec].
      * rewrite (delete_employee_attendance _ _ Hin) in Hrec.
        apply filter_In in Hrec as [_ Hc].
        rewrite Heid, String.eqb_refl in Hc. discriminate.
      * simpl in Hrec. pose proof (seq_attendance st Hok a Ha). lia.
Qed.

Lemma date_order_total (x y : Attendance) :
  String.leb (att_date y) (att_date x) = true
  \/ String.leb (att_date x) (att_date y) = true.
Proof. apply String.leb_total. Qed.

Lemma date_order_trans (x y z : Attendance) :
  String.leb (att_date y) (att_date x) = true ->
  String.leb (att_date z) (att_date y) = true ->
  String.leb (att_date z) (att_date x) = true.
Proof. intros H1 H2. eapply string_leb_trans; eauto. Qed.

(** C6. For a known employee: a supplied [startDate] or [endDate] that is
    not of the shape YYYY-MM-DD is answered 400; otherwise the answer is
    200 with exactly the rows of that employee whose date is at or after
    [startDate] and at or before [endDate], each bound counting only when
    supplied, later dates first; and without filters these are all the rows
    of the employee. *)
Theorem query_by_employee eid s e st :
  In eid (map employee_id (employees st)) ->
  (malformed s = true \/ malformed e = true ->
   code (get_employee_attendance eid s e st) = 400%nat)
  /\ (malformed s = false -> malformed e = false ->
      exists recs,
        get_employee_attendance eid s e st = json (RecordsBody recs)
        /\ Permutation recs
                       (filter (fun a => (att_employee_id a =? eid)%string
                                         && in_range s e a)
                               (attendance st))
        /\ StronglySorted date_desc recs)
  /\ (truthy s = None -> truthy e = None ->
      exists recs,
        get_employee_attendance eid s e st = json (RecordsBody recs)
        /\ Permutation recs
                       (filter (fun a => (att_employee_id a =? eid)%string)
                               (attendance st))
        /\ StronglySorted date_desc recs).
Proof.
  intros Hknown.
  assert (Hgood : malformed s = false -> malformed e = false ->
      exists recs,
        get_employee_attendance eid s e st = json (RecordsBody recs)
        /\ Permutation recs
                       (filter (fun a => (att_employee_id a =? eid)%string
                                         && in_range s e a)
                               (attendance st))
        /\ StronglySorted date_desc recs).
  { intros Hs He. eexists. split; [now apply query_known_records |].
    split; [apply order_by_perm |].
    apply (order_by_sorted _ date_order_total date_order_trans). }
  split; [| split; [exact Hgood |]].
  - unfold get_employee_attendance, malformed.
    rewrite (select_employee_id_known _ _ Hknown).
    destruct (truthy s) as [s' |]; [destruct (isValidDate s'); simpl |];
      (destruct (truthy e) as [e' |]; [destruct (isValidDate e'); simpl |]);
      intros [H | H]; try discriminate; reflexivity.
  - intros Hs He.
    destruct Hgood as (recs & Hq & Hperm & Hsorted).
    + unfold malformed. now rewrite Hs.
    + unfold malformed. now rewrite He.
    + exists recs. split; [assumption |]. split; [| assumption].
      rewrite Hperm. erewrite filter_ext; [reflexivity |].
      intros a. unfold in_range. rewrite Hs, He. now rewrite andb_true_r.
Qed.

(** C9. The attendance query looks the employee up before it looks at the
    dates: for an unknown employee the answer is 404, whatever [startDate]
    and [endDate] are, malformed ones included. *)
Theorem query_unknown_employee eid s e st :
  ~ In eid (map employee_id (employees st)) ->
  get_employee_attendance eid s e st
  = status_json 404 (ErrorBody "Employee not found.").
Proof.
  intros Hn. unfold get_employee_attendance.
  now rewrite (proj2 (select_employee_id_None eid st) Hn).
Qed.

(** ** Creating an employee *)

(** A field fails the guard [!x] exactly when it is missing, [null] or the
    empty string. *)
Lemma truthy_None v :
  truthy v = None <-> v = JUndefined \/ v = JNull \/ v = JString "".
Proof.
  destruct v as [| | s]; simpl; [tauto | tauto |].
  destruct (String.eqb_spec s "") as [-> | Hne]; split; auto; try discriminate.
  intros [H | [H | H]]; try discriminate. congruence.
Qed.

Lemma truthy_Some v s : truthy v = Some s <-> v = JString s /\ s <> "".
Proof.
  destruct v as [| | s0]; simpl;
    [split; [discriminate | intros [H _]; discriminate] ..|].
  destruct (String.eqb_spec s0 "") as [-> | Hne]; split.
  - discriminate.
  - intros [[= <-] H]. congruence.
  - intros [= <-]. auto.
  - intros [[= <-] _]. reflexivity.
Qed.

Lemma insert_employee_fresh row st :
  ~ In (employee_id row) (map employee_id (employees st)) ->
  ~ In (email row) (map email (employees st)) ->
  insert_employee row st
  = Ok (mkStore (employees st ++ [row]) (attendance st) (attendance_seq st)).
Proof.
  intros Hid Hem. unfold insert_employee.
  destruct (existsb _ (employees st)) eqn:E1.
  { apply existsb_employee_id in E1. contradiction. }
  destruct (existsb (fun e => (email e =? email row)%string) (employees st)) eqn:E2.
  { apply existsb_email in E2. contradiction. }
  reflexivity.
Qed.

(** A well-formed request with an id and an email the store has not seen is
    answered 201, and its row is appended with the time of the server. *)
Lemma post_employees_created now b st eid name em dept :
  truthy (b_employeeId b) = Some eid ->
  truthy (b_fullName b) = Some name ->
  truthy (b_email b) = Some em ->
  truthy (b_department b) = Some dept ->
  isValidEmail em = true ->
  ~ In eid (map employee_id (employees st)) ->
  ~ In em (map email (employees st)) ->
  post_employees now b st
  = (status_json 201 (MessageBody "Employee created."),
     mkStore (employees st ++ [mkEmployee eid name em dept now])
             (attendance st) (attendance_seq st)).
Proof.
  intros H1 H2 H3 H4 Hv Hid Hem. unfold post_employees.
  rewrite H1, H2, H3, H4, Hv. simpl.
  rewrite (proj2 (select_employee_id_None eid st) Hid).
  rewrite (proj2 (select_email_None em st) Hem).
  now rewrite insert_employee_fresh.
Qed.

(** C5, as the code has it. Create answers 400 and writes nothing when one
    of the four fields is missing or empty or the email is malformed. When
    the four fields are there and the email is well formed, it answers 409
    and writes nothing if the employee id or the email is already in the
    store, whatever the other three values are, and otherwise it answers
    201 and appends the employee with the time of the server as
    [created_at]. *)
Theorem create_employee_outcomes now b st :
  (truthy (b_employeeId b) = None \/ truthy (b_fullName b) = None
   \/ truthy (b_email b) = None \/ truthy (b_department b) = None
   \/ (exists em, truthy (b_email b) = Some em /\ isValidEmail em = false) ->
   code (fst (post_employees now b st)) = 400%nat
   /\ snd (post_employees now b st) = st)
  /\ (forall eid name em dept,
         truthy (b_employeeId b) = Some eid ->
         truthy (b_fullName b) = Some name ->
         truthy (b_email b) = Some em ->
         truthy (b_department b) = Some dept ->
         isValidEmail em = true ->
         (In eid (map employee_id (employees st)) \/ In em (map email (employees st)) ->
          code (fst (post_employees now b st)) = 409%nat
          /\ snd (post_employees now b st) = st)
         /\ (~ In eid (map employee_id (employees st)) ->
             ~ In em (map email (employees st)) ->
             post_employees now b st
             = (status_json 201 (MessageBody "Employee created."),
                mkStore (employees st ++ [mkEmployee eid name em dept now])
                        (attendance st) (attendance_seq st)))).
Proof.
  split.
  - unfold post_employees.
    intros [H | [H | [H | [H | (em & H & Hv)]]]]; rewrite ?H;
      destruct (truthy (b_employeeId b)); simpl; auto;
      destruct (truthy (b_fullName b)); simpl; auto;
      destruct (truthy (b_email b)); simpl; auto;
      try discriminate;
      destruct (truthy (b_department b)); simpl; auto.
    injection H as ->. rewrite Hv. simpl. auto.
  - intros eid name em dept H1 H2 H3 H4 Hv. split.
    + intros Hused. unfold post_employees. rewrite H1, H2, H3, H4, Hv. simpl.
      destruct (select_employee_id eid st) eqn:Eid; [simpl; auto |].
      destruct (select_email em st) eqn:Eem; [simpl; auto |].
      apply select_employee_id_None in Eid. apply select_email_None in Eem. tauto.
    + intros Hid Hem. now apply post_employees_created.
Qed.

(** The claim C5 as worded fails: with E1 on the roster, a request that
    reuses the id E1 and leaves [fullName] empty is answered 400, not 409. *)
Lemma create_used_id_empty_name :
  let b := mkEmployeeBody (JString "E1") (JString "") (JString "zoe@x.com")
                          (JString "Eng") in
  In "E1" (map employee_id (employees sample_store))
  /\ post_employees "2024-02-01T08:00:00.000Z" b sample_store
     = (status_json 400 (ErrorBody "All fields are required."), sample_store)
  /\ code (fst (post_employees "2024-02-01T08:00:00.000Z" b sample_store)) <> 409%nat.
Proof.
  split; [vm_compute; auto |].
  split; [reflexivity | vm_compute; discriminate].
Qed.

Lemma filter_length_perm {A : Type} (p : A -> bool) (l l' : list A) :
  Permutation l l' -> List.length (filter p l) = List.length (filter p l').
Proof.
  induction 1 as [| x l l' _ IH | x y l | l l' l'' _ IH1 _ IH2]; simpl.
  - reflexivity.
  - destruct (p x); simpl; congruence.
  - destruct (p x), (p y); reflexivity.
  - congruence.
Qed.

(** C7. After creating an employee from a well-formed payload whose id and
    email the store had not seen, the list of employees holds exactly one
    row with that payload's id, name, email and department. *)
Theorem create_then_list now b st eid name em dept :
  truthy (b_employeeId b) = Some eid ->
  truthy (b_fullName b) = Some name ->
  truthy (b_email b) = Some em ->
  truthy (b_department b) = Some dept ->
  isValidEmail em = true ->
  ~ In eid (map employee_id (employees st)) ->
  ~ In em (map email (employees st)) ->
  code (fst (post_employees now b st)) = 201%nat
  /\ exists l,
       get_employees (snd (post_employees now b st)) = json (EmployeesBody l)
       /\ List.length (filter (matches_payload eid name em dept) l) = 1%nat
       /\ In (mkEmployee eid name em dept now) l.
Proof.
  intros H1 H2 H3 H4 Hv Hid Hem.
  rewrite (post_employees_created now b st eid name em dept) by assumption.
  split; [reflexivity |]. eexists. split; [reflexivity |].
  unfold select_employees. cbn [snd employees]. split.
  - rewrite (filter_length_perm _ _ _ (order_by_perm _ _)).
    rewrite filter_app, length_app.
    rewrite (proj2 (length_zero_iff_nil _)).
    + simpl. unfold matches_payload. simpl. now rewrite !String.eqb_refl.
    + destruct (filter _ (employees st)) as [| e t] eqn:F; [reflexivity |].
      assert (He : In e (filter (matches_payload eid name em dept) (employees st)))
        by (rewrite F; now left).
      apply filter_In in He as [He Hm]. unfold matches_payload in Hm.
      rewrite !andb_true_iff in Hm. destruct Hm as [[[Hm _] _] _].
      apply String.eqb_eq in Hm. exfalso. apply Hid. rewrite <- Hm. now apply in_map.
  - apply order_by_In. apply in_or_app. right. now left.
Qed.

(** ** Email addresses and letter case *)

Lemma lower_char_idempotent c : lower_char (lower_char c) = lower_char c.
Proof. destruct c as [[] [] [] [] [] [] [] []]; reflexivity. Qed.

Lemma toLowerCase_idempotent s : toLowerCase (toLowerCase s) = toLowerCase s.
Proof.
  induction s as [| c s IH]; simpl; [reflexivity |].
  now rewrite lower_char_idempotent, IH.
Qed.

(** The format check does not see letter case. *)
Lemma isValidEmail_case s s' :
  toLowerCase s = toLowerCase s' -> isValidEmail s = isValidEmail s'.
Proof. unfold isValidEmail. now intros ->. Qed.

Lemma isValidEmail_lower s : isValidEmail (toLowerCase s) = isValidEmail s.
Proof. apply isValidEmail_case, toLowerCase_idempotent. Qed.

(** C10. Whether an email is taken is decided by equality of strings, letter
    case included, in the lookup before the insert and in the UNIQUE
    constraint alike: two employees whose emails differ in letter case only
    are both created, 201 each and both rows stored, although the format
    check treats the two emails as the same. *)
Theorem email_uniqueness_is_case_sensitive now1 now2 b1 b2 st
        id1 name1 em1 dept1 id2 name2 em2 dept2 :
  truthy (b_employeeId b1) = Some id1 ->
  truthy (b_fullName b1) = Some name1 ->
  truthy (b_email b1) = Some em1 ->
  truthy (b_department b1) = Some dept1 ->
  truthy (b_employeeId b2) = Some id2 ->
  truthy (b_fullName b2) = Some name2 ->
  truthy (b_email b2) = Some em2 ->
  truthy (b_department b2) = Some dept2 ->
  isValidEmail em1 = true ->
  toLowerCase em1 = toLowerCase em2 ->
  em1 <> em2 ->
  id1 <> id2 ->
  ~ In id1 (map employee_id (employees st)) ->
  ~ In id2 (map employee_id (employees st)) ->
  ~ In em1 (map email (employees st)) ->
  ~ In em2 (map email (employees st)) ->
  let r1 := post_employees now1 b1 st in
  let r2 := post_employees now2 b2 (snd r1) in
  isValidEmail em2 = isValidEmail em1
  /\ fst r1 = status_json 201 (MessageBody "Employee created.")
  /\ select_email em2 (snd r1) = None
  /\ fst r2 = status_json 201 (MessageBody "Employee created.")
  /\ employees (snd r2)
     = employees st ++ [mkEmployee id1 name1 em1 dept1 now1;
                        mkEmployee id2 name2 em2 dept2 now2].
Proof.
  intros A1 A2 A3 A4 B1 B2 B3 B4 Hv Hcase Hem Hid F1 F2 G1 G2 r1 r2.
  assert (Hv2 : isValidEmail em2 = true)
    by (rewrite <- Hv; symmetry; now apply isValidEmail_case).
  subst r2 r1.
  rewrite (post_employees_created now1 b1 st id1 name1 em1 dept1) by assumption.
  cbn [fst snd].
  set (st1 := mkStore _ _ _).
  assert (F2' : ~ In id2 (map employee_id (employees st1))).
  { subst st1. simpl. rewrite map_app, in_app_iff. simpl. intuition congruence. }
  assert (G2' : ~ In em2 (map email (employees st1))).
  { subst st1. simpl. rewrite map_app, in_app_iff. simpl. intuition congruence. }
  rewrite (post_employees_created now2 b2 st1 id2 name2 em2 dept2) by assumption.
  split; [congruence |]. split; [reflexivity |].
  split; [now apply select_email_None |]. split; [reflexivity |].
  subst st1. simpl. now rewrite <- app_assoc.
Qed.

(** ** The theorems at work on the sample store *)

Ltac not_in_sample :=
  vm_compute;
  let H := fresh "H" in
  intro H; repeat (destruct H as [H | H]; [discriminate H |]); exact H.

Lemma summary_present_by_employee_witness :
  store_ok sample_store
  /\ exists totals rows,
       get_summary sample_store = json (SummaryBody totals rows)
       /\ Permutation (map pr_employee_id rows) ["E1"; "E2"]
       /\ NoDup (map pr_employee_id rows)
       /\ StronglySorted present_before rows.
Proof.
  split; [apply sample_store_ok |].
  destruct (summary_present_by_employee sample_store sample_store_ok)
    as (totals & rows & Hs & _ & Hids & Hnd & _ & Hsorted).
  exists totals, rows. repeat split; assumption.
Defined.

Lemma summary_present_total_witness :
  store_ok sample_store
  /\ exists totals rows,
       get_summary sample_store = json (SummaryBody totals rows)
       /\ total_present totals = 3%nat
       /\ total_present totals = list_sum (map present_days rows).
Proof.
  split; [apply sample_store_ok |].
  destruct (summary_present_total sample_store sample_store_ok)
    as (totals & rows & Hs & Hcount & Hsum).
  exists totals, rows. repeat split; assumption.
Defined.

Lemma delete_employee_cascades_witness :
  store_ok sample_store
  /\ In "E1" (map employee_id (employees sample_store))
  /\ fst (delete_employees "E1" sample_store) = json (MessageBody "Employee deleted.")
  /\ map att_id (attendance (snd (delete_employees "E1" sample_store))) = [4%Z]
  /\ (forall rs eid' s e recs,
         get_employee_attendance eid' s e
           (run rs (snd (delete_employees "E1" sample_store)))
         = json (RecordsBody recs) ->
         forall a, In a (attendance sample_store) ->
                   att_employee_id a = "E1" -> ~ In a recs).
Proof.
  split; [apply sample_store_ok |].
  assert (Hin : In "E1" (map employee_id (employees sample_store)))
    by (vm_compute; auto).
  split; [exact Hin |].
  destruct (delete_employee_cascades "E1" sample_store sample_store_ok) as [_ H].
  destruct (H Hin) as (Hr & _ & Hatt & _ & Hq).
  split; [exact Hr |]. split; [| exact Hq].
  rewrite Hatt. reflexivity.
Defined.

Lemma query_by_employee_witness :
  In "E1" (map employee_id (employees sample_store))
  /\ exists recs,
       get_employee_attendance "E1" (JString "2024-01-10") (JString "2024-01-20")
                               sample_store
       = json (RecordsBody recs)
       /\ Permutation recs
            [mkAttendance 2 "E1" "2024-01-15" "Present" "2024-01-15T09:00:00.000Z"]
       /\ StronglySorted date_desc recs.
Proof.
  assert (Hin : In "E1" (map employee_id (employees sample_store)))
    by (vm_compute; auto).
  split; [exact Hin |].
  destruct (query_by_employee "E1" (JString "2024-01-10") (JString "2024-01-20")
                              sample_store Hin) as (_ & H & _).
  destruct (H eq_refl eq_refl) as (recs & Hq & Hperm & Hsorted).
  exists recs. repeat split; assumption.
Defined.

Lemma query_unknown_employee_witness :
  ~ In "E9" (map employee_id (employees sample_store))
  /\ malformed (JString "yesterday") = true
  /\ get_employee_attendance "E9" (JString "yesterday") JUndefined sample_store
     = status_json 404 (ErrorBody "Employee not found.").
Proof.
  assert (Hn : ~ In "E9" (map employee_id (employees sample_store)))
    by not_in_sample.
  split; [exact Hn |]. split; [reflexivity |].
  exact (query_unknown_employee "E9" (JString "yesterday") JUndefined sample_store Hn).
Defined.

Lemma create_then_list_witness :
  code (fst (post_employees "2024-02-01T08:00:00.000Z" cy sample_store)) = 201%nat
  /\ exists l,
       get_employees (snd (post_employees "2024-02-01T08:00:00.000Z" cy sample_store))
       = json (EmployeesBody l)
       /\ List.length (filter (matches_payload "E3" "Cy" "cy@x.com" "Eng") l) = 1%nat
       /\ In (mkEmployee "E3" "Cy" "cy@x.com" "Eng" "2024-02-01T08:00:00.000Z") l.
Proof.
  apply (create_then_list "2024-02-01T08:00:00.000Z" cy sample_store
                          "E3" "Cy" "cy@x.com" "Eng");
    try reflexivity; not_in_sample.
Defined.

Lemma email_uniqueness_is_case_sensitive_witness :
  toLowerCase "dee@x.com" = toLowerCase "Dee@X.com"
  /\ "dee@x.com" <> "Dee@X.com"
  /\ fst (post_employees "2024-02-01T08:00:00.000Z" dee_lower sample_store)
     = status_json 201 (MessageBody "Employee created.")
  /\ fst (post_employees "2024-02-01T08:01:00.000Z" dee_upper
            (snd (post_employees "2024-02-01T08:00:00.000Z" dee_lower sample_store)))
     = status_json 201 (MessageBody "Employee created.").
Proof.
  assert (V : isValidEmail "dee@x.com" = true) by reflexivity.
  assert (L : toLowerCase "dee@x.com" = toLowerCase "Dee@X.com") by reflexivity.
  assert (N : "dee@x.com" <> "Dee@X.com") by discriminate.
  assert (N' : "E4" <> "E5") by discriminate.
  assert (F1 : ~ In "E4" (map employee_id (employees sample_store)))
    by not_in_sample.
  assert (F2 : ~ In "E5" (map employee_id (employees sample_store)))
    by not_in_sample.
  assert (G1 : ~ In "dee@x.com" (map email (employees sample_store)))
    by not_in_sample.
  assert (G2 : ~ In "Dee@X.com" (map email (employees sample_store)))
    by not_in_sample.
  split; [exact L |]. split; [exact N |].
  destruct (email_uniqueness_is_case_sensitive
              "2024-02-01T08:00:00.000Z" "2024-02-01T08:01:00.000Z"
              dee_lower dee_upper sample_store
              "E4" "Dee" "dee@x.com" "Eng" "E5" "Dee" "Dee@X.com" "Eng"
              eq_refl eq_refl eq_refl eq_refl eq_refl eq_refl eq_refl eq_refl
              V L N N' F1 F2 G1 G2)
    as (_ & H1 & _ & H2 & _).
  split; [exact H1 | exact H2].
Defined.

(** The run of section 8 of the specification: Ann is created, marked
    present on 2024-01-01, and the summary shows one employee, one present
    record, and Ann with one present day. *)
Example summary_of_ann :
  let st1 := snd (post_employees "2024-01-01T08:00:00.000Z" ann empty_store) in
  let st2 := snd (post_attendance "2024-01-01T09:00:00.000Z" ann_jan01 st1) in
  code (fst (post_employees "2024-01-01T08:00:00.000Z" ann empty_store)) = 201%nat
  /\ code (fst (post_attendance "2024-01-01T09:00:00.000Z" ann_jan01 st1)) = 201%nat
  /\ get_summary st2
     = json (SummaryBody (mkTotals 1 1 1) [mkPresentRow "E1" "Ann" 1]).
Proof. repeat split. Qed.

Lemma create_employee_outcomes_witness :
  let b := mkEmployeeBody (JString "E1") (JString "Zoe") (JString "zoe@x.com")
                          (JString "Ops") in
  In "E1" (map employee_id (employees sample_store))
  /\ code (fst (post_employees "2024-02-01T08:00:00.000Z" b sample_store)) = 409%nat
  /\ snd (post_employees "2024-02-01T08:00:00.000Z" b sample_store) = sample_store.
Proof.
  intros b.
  assert (Hin : In "E1" (map employee_id (employees sample_store)))
    by (vm_compute; auto).
  split; [exact Hin |].
  destruct (create_employee_outcomes "2024-02-01T08:00:00.000Z" b sample_store)
    as [_ H].
  destruct (H "E1" "Zoe" "zoe@x.com" "Ops" eq_refl eq_refl eq_refl eq_refl eq_refl)
    as [Hconflict _].
  exact (Hconflict (or_introl Hin)).
Defined.

(** * Further properties of the validators and handlers *)

(** ** Accepted emails *)

Lemma deriv_lower r : forall c, case_blind r -> deriv (lower_char c) r = deriv c r.
Proof.
  induction r as [| | p | r1 IH1 r2 IH2 | r1 IH1 r2 IH2 | r1 IH1];
    simpl; intros c Hb; try reflexivity.
  - now rewrite Hb.
  - destruct Hb as [H1 H2]. now rewrite IH1, IH2.
  - destruct Hb as [H1 H2]. now rewrite IH1, IH2.
  - now rewrite IH1.
Qed.

Lemma deriv_case_blind r : forall c, case_blind r -> case_blind (deriv c r).
Proof.
  induction r as [| | p | r1 IH1 r2 IH2 | r1 IH1 r2 IH2 | r1 IH1];
    simpl; intros c Hb; auto.
  - destruct (p c); exact I.
  - destruct Hb as [H1 H2]. destruct (nullable r1); simpl; auto.
  - destruct Hb as [H1 H2]. auto.
Qed.

Lemma test_lower r : forall s, case_blind r -> test r (toLowerCase s) = test r s.
Proof.
  intros s. revert r. induction s as [| c s IH]; simpl; intros r Hb; [reflexivity |].
  rewrite deriv_lower by assumption. apply IH. now apply deriv_case_blind.
Qed.

Lemma email_pattern_case_blind : case_blind email_pattern.
Proof.
  assert (Hn : forall c, not_space_at (lower_char c) = not_space_at c)
    by (intros [[] [] [] [] [] [] [] []]; reflexivity).
  assert (Ha : forall c, Ascii.eqb "@" (lower_char c) = Ascii.eqb "@" c)
    by (intros [[] [] [] [] [] [] [] []]; reflexivity).
  assert (Hd : forall c, Ascii.eqb "." (lower_char c) = Ascii.eqb "." c)
    by (intros [[] [] [] [] [] [] [] []]; reflexivity).
  unfold email_pattern, Plus, Lit. simpl. repeat split; assumption.
Qed.

Lemma star_class_all p s :
  Matches (Star (Class p)) s <-> all_chars p s = true.
Proof.
  split.
  - intros H. remember (Star (Class p)) as r eqn:Er.
    induction H as [| | | | | r0 | r0 s1 s2 H1 _ H2 IH2]; try discriminate.
    + reflexivity.
    + injection Er as ->. inversion H1; subst. simpl.
      rewrite IH2 by reflexivity. now rewrite andb_true_r.
  - induction s as [| c s IH]; simpl; intros H; [constructor |].
    apply andb_true_iff in H as [Hc Hs].
    change (String c s) with (String c "" ++ s)%string.
    constructor; [now constructor | auto].
Qed.

Lemma plus_class_part s :
  Matches (Plus (Class not_space_at)) s <-> email_part s.
Proof.
  unfold Plus, email_part. split.
  - intros H. inversion H as [| | r1 r2 s1 s2 H1 H2 | | | |]; subst.
    inversion H1; subst. apply star_class_all in H2. simpl.
    split; [discriminate |]. now rewrite H2, andb_true_r.
  - intros [Hne Hall]. destruct s as [| c s]; [congruence |].
    simpl in Hall. apply andb_true_iff in Hall as [Hc Hs].
    apply Matches_cons; [assumption |]. now apply star_class_all.
Qed.

Lemma email_pattern_shape s : Matches email_pattern s <-> email_shape s.
Proof.
  unfold email_pattern, email_shape, Lit. split.
  - intros H.
    inversion H as [| | ? ? local s' Hl H' | | | |]; subst; clear H.
    inversion H' as [| | ? ? at_ s'' Ha H'' | | | |]; subst; clear H'.
    inversion H'' as [| | ? ? domain s3 Hd H3 | | | |]; subst; clear H''.
    inversion H3 as [| | ? ? dot tld Hdot Ht | | | |]; subst; clear H3.
    inversion Ha as [| p c Hc | | | | |]; subst; clear Ha.
    inversion Hdot as [| p c' Hc' | | | | |]; subst; clear Hdot.
    apply Ascii.eqb_eq in Hc, Hc'. subst c c'.
    exists local, domain, tld. rewrite <- !plus_class_part. auto.
  - intros (local & domain & tld & -> & Hl & Hd & Ht).
    apply plus_class_part in Hl, Hd, Ht.
    constructor; [exact Hl |].
    apply Matches_cons; [reflexivity |].
    constructor; [exact Hd |].
    apply Matches_cons; [reflexivity | exact Ht].
Qed.

(** X1. [isValidEmail] accepts exactly the strings [local@domain.tld] whose
    three parts are non-empty and free of white space and at-signs; the
    lower-casing it applies first changes nothing of the verdict. *)
Theorem isValidEmail_shape s :
  isValidEmail s = test email_pattern s
  /\ (isValidEmail s = true <-> email_shape s).
Proof.
  assert (H : isValidEmail s = test email_pattern s).
  { unfold isValidEmail. apply test_lower, email_pattern_case_blind. }
  split; [exact H |].
  rewrite H, test_correct. apply email_pattern_shape.
Qed.

Lemma count_char_app c s1 s2 :
  count_char c (s1 ++ s2)%string = (count_char c s1 + count_char c s2)%nat.
Proof. induction s1 as [| x s1 IH]; simpl; [reflexivity | rewrite IH; lia]. Qed.

Lemma all_chars_app p s1 s2 :
  all_chars p (s1 ++ s2)%string = all_chars p s1 && all_chars p s2.
Proof.
  induction s1 as [| x s1 IH]; simpl; [reflexivity |].
  now rewrite IH, andb_assoc.
Qed.

Lemma string_length_app s1 s2 :
  String.length (s1 ++ s2)%string = (String.length s1 + String.length s2)%nat.
Proof. induction s1 as [| x s1 IH]; simpl; [reflexivity | now rewrite IH]. Qed.

Lemma email_part_facts s :
  email_part s ->
  count_char "@" s = 0%nat
  /\ all_chars (fun c => negb (is_space c)) s = true
  /\ (1 <= String.length s)%nat.
Proof.
  intros [Hne Hall]. split; [| split].
  - clear Hne. induction s as [| c s IH]; simpl in *; [reflexivity |].
    apply andb_true_iff in Hall as [Hc Hs]. rewrite (IH Hs).
    unfold not_space_at in Hc. apply andb_true_iff in Hc as [_ Hc].
    apply negb_true_iff in Hc. now rewrite Hc.
  - clear Hne. induction s as [| c s IH]; simpl in *; [reflexivity |].
    apply andb_true_iff in Hall as [Hc Hs]. rewrite (IH Hs).
    unfold not_space_at in Hc. apply andb_true_iff in Hc as [Hc _].
    now rewrite Hc.
  - destruct s; simpl; [congruence | lia].
Qed.

(** X2. An email [isValidEmail] accepts has exactly one at-sign, no white
    space anywhere, and at least five characters. *)
Theorem isValidEmail_one_at s :
  isValidEmail s = true ->
  count_char "@" s = 1%nat
  /\ all_chars (fun c => negb (is_space c)) s = true
  /\ (5 <= String.length s)%nat.
Proof.
  unfold isValidEmail. rewrite test_lower by apply email_pattern_case_blind.
  rewrite test_correct, email_pattern_shape.
  intros (local & domain & tld & -> & Hl & Hd & Ht).
  apply email_part_facts in Hl as (L1 & L2 & L3).
  apply email_part_facts in Hd as (D1 & D2 & D3).
  apply email_part_facts in Ht as (T1 & T2 & T3).
  rewrite !count_char_app, !all_chars_app, !string_length_app.
  rewrite L1, D1, T1, L2, D2, T2. simpl. repeat split; lia.
Qed.

Lemma isValidEmail_one_at_witness :
  isValidEmail "ann@x.com" = true
  /\ count_char "@" "ann@x.com" = 1%nat
  /\ all_chars (fun c => negb (is_space c)) "ann@x.com" = true
  /\ (5 <= String.length "ann@x.com")%nat.
Proof.
  split; [reflexivity |].
  apply (isValidEmail_one_at "ann@x.com"). reflexivity.
Defined.

(** ** Dates compare as days *)

Lemma is_digit_value c :
  is_digit c = true ->
  N_of_ascii c = (digit_value c + 48)%N /\ (digit_value c <= 9)%N.
Proof.
  unfold is_digit, nat_of_ascii, digit_value. intros H.
  apply andb_true_iff in H as [H1 H2].
  apply Nat.leb_le in H1, H2. lia.
Qed.

Ltac date_leaf :=
  split;
  [ first [ discriminate | intros _; lia ]
  | intros Hle; first [ reflexivity | exfalso; lia ] ].

Ltac digit_facts H c v :=
  apply is_digit_value in H;
  let E := fresh "E" in
  destruct H as [E H]; rewrite E; clear E;
  generalize dependent (digit_value c); intros v H.

(** X3. On strings [isValidDate] accepts, the text comparison the
    attendance query filters and sorts with is the comparison of the days
    they name: [s <= t] as strings exactly when YYYYMMDD of [s] is at most
    YYYYMMDD of [t]. *)
Theorem valid_dates_compare_as_days s t :
  isValidDate s = true -> isValidDate t = true ->
  (String.leb s t = true <-> (date_key s <= date_key t)%N).
Proof.
  unfold isValidDate. rewrite !test_correct, !date_pattern_shape.
  intros (a1 & a2 & a3 & a4 & a5 & a6 & a7 & a8 & -> & Ha)
         (b1 & b2 & b3 & b4 & b5 & b6 & b7 & b8 & -> & Hb).
  simpl in Ha, Hb. rewrite !andb_true_iff in Ha, Hb.
  destruct Ha as (A1 & A2 & A3 & A4 & A5 & A6 & A7 & A8 & _).
  destruct Hb as (B1 & B2 & B3 & B4 & B5 & B6 & B7 & B8 & _).
  unfold String.leb, date_key. cbn [String.compare].
  unfold Ascii.compare.
  change (N_of_ascii "-" ?= N_of_ascii "-")%N with Eq. cbv iota.
  digit_facts A1 a1 v1. digit_facts B1 b1 w1.
  digit_facts A2 a2 v2. digit_facts B2 b2 w2.
  digit_facts A3 a3 v3. digit_facts B3 b3 w3.
  digit_facts A4 a4 v4. digit_facts B4 b4 w4.
  digit_facts A5 a5 v5. digit_facts B5 b5 w5.
  digit_facts A6 a6 v6. digit_facts B6 b6 w6.
  digit_facts A7 a7 v7. digit_facts B7 b7 w7.
  digit_facts A8 a8 v8. digit_facts B8 b8 w8.
  destruct (N.compare_spec (v1 + 48) (w1 + 48)); cbv iota; [| date_leaf ..].
  destruct (N.compare_spec (v2 + 48) (w2 + 48)); cbv iota; [| date_leaf ..].
  destruct (N.compare_spec (v3 + 48) (w3 + 48)); cbv iota; [| date_leaf ..].
  destruct (N.compare_spec (v4 + 48) (w4 + 48)); cbv iota; [| date_leaf ..].
  destruct (N.compare_spec (v5 + 48) (w5 + 48)); cbv iota; [| date_leaf ..].
  destruct (N.compare_spec (v6 + 48) (w6 + 48)); cbv iota; [| date_leaf ..].
  destruct (N.compare_spec (v7 + 48) (w7 + 48)); cbv iota; [| date_leaf ..].
  destruct (N.compare_spec (v8 + 48) (w8 + 48)); cbv iota; date_leaf.
Qed.

Lemma valid_dates_compare_as_days_witness :
  date_key "2024-01-10" = 20240110%N
  /\ date_key "2024-01-20" = 20240120%N
  /\ (String.leb "2024-01-10" "2024-01-20" = true
      <-> (date_key "2024-01-10" <= date_key "2024-01-20")%N).
Proof.
  split; [reflexivity |]. split; [reflexivity |].
  apply (valid_dates_compare_as_days "2024-01-10" "2024-01-20"); reflexivity.
Defined.

(** ** Listing and summing up *)

(** X4. The list of employees is the whole table, each row once, the one
    created last first. *)
Theorem list_is_the_roster_newest_first st :
  exists l,
    get_employees st = json (EmployeesBody l)
    /\ Permutation l (employees st)
    /\ StronglySorted (fun x y => String.leb (created_at y) (created_at x) = true) l.
Proof.
  eexists. split; [reflexivity |]. unfold select_employees. split.
  - apply order_by_perm.
  - apply (order_by_sorted (fun x y => String.leb (created_at y) (created_at x))).
    + intros x y. apply String.leb_total.
    + intros x y z H1 H2. eapply string_leb_trans; eauto.
Qed.

(** X5. The totals of the summary count the rows of the two tables; the
    present records are among the attendance records, and there are as many
    entries in [presentByEmployee] as employees. *)
Theorem summary_totals st :
  store_ok st ->
  exists totals rows,
    get_summary st = json (SummaryBody totals rows)
    /\ total_employees totals = List.length (employees st)
    /\ total_attendance totals = List.length (attendance st)
    /\ (total_present totals <= total_attendance totals)%nat
    /\ List.length rows = total_employees totals.
Proof.
  intros Hok. unfold get_summary. do 2 eexists. split; [reflexivity |].
  simpl. rewrite !or_zero_id. unfold count_employees, count_attendance, count_present.
  repeat split.
  - apply filter_length_le.
  - rewrite (Permutation_length (select_present_by_employee_perm st Hok)).
    apply length_map.
Qed.

Lemma summary_totals_witness :
  store_ok sample_store
  /\ exists totals rows,
       get_summary sample_store = json (SummaryBody totals rows)
       /\ total_employees totals = 2%nat
       /\ total_attendance totals = 4%nat
       /\ (total_present totals <= total_attendance totals)%nat
       /\ List.length rows = total_employees totals.
Proof.
  split; [apply sample_store_ok |].
  destruct (summary_totals sample_store sample_store_ok)
    as (totals & rows & Hs & He & Ha & Hp & Hl).
  exists totals, rows. repeat split; assumption.
Defined.

(** ** Outcomes of the two writing handlers *)

Lemma insert_attendance_fresh eid d stat created st :
  In eid (map employee_id (employees st)) ->
  ~ In (eid, d) (map att_key (attendance st)) ->
  insert_attendance eid d stat created st
  = if (max_rowid <=? last_rowid st)%Z
    then Failed SQLITE_FULL
    else Ok (mkStore (employees st)
                     (attendance st
                        ++ [mkAttendance (last_rowid st + 1) eid d stat created])
                     (last_rowid st + 1)).
Proof.
  intros Hknown Hfresh. unfold insert_attendance.
  destruct (existsb _ (attendance st)) eqn:E1.
  { apply existsb_att_key in E1. contradiction. }
  rewrite (proj2 (existsb_employee_id eid (employees st)) Hknown). reflexivity.
Qed.

Lemma select_attendance_id_known eid d st :
  In (eid, d) (map att_key (attendance st)) ->
  exists i, select_attendance_id eid d st = Some i.
Proof.
  intros Hin. destruct (select_attendance_id eid d st) as [i |] eqn:E; [eauto |].
  apply select_attendance_id_None in E. contradiction.
Qed.

(** X6. On one state of the store, the schema refuses the INSERT of an
    employee exactly when the lookup by id or the lookup by email of the
    handler finds a row, and the INSERT of an attendance row exactly when
    the lookup of the employee finds nothing, the lookup of the (employee,
    date) pair finds a row, or the rowids are used up: the lookups the
    handlers run first test the very constraints the tables enforce. *)
Theorem inserts_fail_as_lookups_find :
  (forall row st,
      (exists err, insert_employee row st = Failed err)
      <-> (select_employee_id (employee_id row) st <> None
           \/ select_email (email row) st <> None))
  /\ (forall row st,
         select_employee_id (employee_id row) st = None ->
         select_email (email row) st = None ->
         insert_employee row st
         = Ok (mkStore (employees st ++ [row]) (attendance st) (attendance_seq st)))
  /\ (forall eid d stat created st,
         (exists err, insert_attendance eid d stat created st = Failed err)
         <-> (select_employee_id eid st = None
              \/ select_attendance_id eid d st <> None
              \/ (max_rowid <= last_rowid st)%Z)).
Proof.
  split; [| split].
  - intros row st. rewrite select_employee_id_None, select_email_None.
    unfold insert_employee.
    destruct (existsb _ (employees st)) eqn:E1.
    { apply existsb_employee_id in E1. split; [tauto | eauto]. }
    destruct (existsb (fun e => (email e =? email row)%string) (employees st)) eqn:E2.
    { apply existsb_email in E2. split; [tauto | eauto]. }
    split.
    + intros [err H]. discriminate.
    + intros [H | H]; exfalso; apply H; intros Hin.
      * apply existsb_employee_id in Hin. congruence.
      * apply existsb_email in Hin. congruence.
  - intros row st Hid Hem. apply insert_employee_fresh.
    + now apply select_employee_id_None.
    + now apply select_email_None.
  - intros eid d stat created st.
    rewrite select_employee_id_None, select_attendance_id_None.
    unfold insert_attendance.
    destruct (existsb _ (attendance st)) eqn:E1.
    { apply existsb_att_key in E1. split; [tauto | eauto]. }
    destruct (existsb _ (employees st)) eqn:E2; simpl.
    + apply existsb_employee_id in E2.
      destruct (Z.leb_spec max_rowid (last_rowid st)) as [Hfull | Hroom].
      * split; [tauto | eauto].
      * split; [intros [err H]; discriminate |].
        intros [H | [H | H]]; [tauto | | lia].
        exfalso. apply H. intros Hin. apply existsb_att_key in Hin. congruence.
    + split; [| eauto]. intros _. left. intros Hin.
      apply existsb_employee_id in Hin. congruence.
Qed.

(** The request passes the three checks on its fields. *)
Lemma post_attendance_checked now b st eid d s :
  truthy (a_employeeId b) = Some eid ->
  truthy (a_date b) = Some d ->
  truthy (a_status b) = Some s ->
  isValidDate d = true ->
  s = "Present" \/ s = "Absent" ->
  post_attendance now b st
  = match select_employee_id eid st with
    | None => (status_json 404 (ErrorBody "Employee not found."), st)
    | Some _ =>
        match select_attendance_id eid d st with
        | Some _ =>
            (status_json 409 (ErrorBody "Attendance already recorded for this date."),
             st)
        | None =>
            match insert_attendance eid d s now st with
            | Ok st' => (status_json 201 (MessageBody "Attendance recorded."), st')
            | Failed _ =>
                (status_json 500 (ErrorBody "Failed to record attendance."), st)
            end
        end
    end.
Proof.
  intros H1 H2 H3 Hd Hs. unfold post_attendance. rewrite H1, H2, H3, Hd.
  destruct Hs as [-> | ->]; reflexivity.
Qed.

(** X7. What recording attendance answers, check by check: 400 when a field
    is missing or empty, the date is not YYYY-MM-DD or the status is neither
    Present nor Absent, whatever the store holds; then 404 for an unknown
    employee; then 409 for a pair already on record; then 201, the new row
    taking the next rowid and the time of the server, or 500 with nothing
    written when the rowids are used up. *)
Theorem record_attendance_outcomes now b st :
  (truthy (a_employeeId b) = None \/ truthy (a_date b) = None
   \/ truthy (a_status b) = None
   \/ (exists d, truthy (a_date b) = Some d /\ isValidDate d = false)
   \/ (exists s, truthy (a_status b) = Some s /\ s <> "Present" /\ s <> "Absent") ->
   code (fst (post_attendance now b st)) = 400%nat
   /\ snd (post_attendance now b st) = st)
  /\ (forall eid d s,
         truthy (a_employeeId b) = Some eid ->
         truthy (a_date b) = Some d ->
         truthy (a_status b) = Some s ->
         isValidDate d = true ->
         s = "Present" \/ s = "Absent" ->
         (~ In eid (map employee_id (employees st)) ->
          post_attendance now b st
          = (status_json 404 (ErrorBody "Employee not found."), st))
         /\ (In eid (map employee_id (employees st)) ->
             In (eid, d) (map att_key (attendance st)) ->
             post_attendance now b st
             = (status_json 409
                  (ErrorBody "Attendance already recorded for this date."), st))
         /\ (In eid (map employee_id (employees st)) ->
             ~ In (eid, d) (map att_key (attendance st)) ->
             (last_rowid st < max_rowid)%Z ->
             post_attendance now b st
             = (status_json 201 (MessageBody "Attendance recorded."),
                mkStore (employees st)
                        (attendance st
                           ++ [mkAttendance (last_rowid st + 1) eid d s now])
                        (last_rowid st + 1)))
         /\ (In eid (map employee_id (employees st)) ->
             ~ In (eid, d) (map att_key (attendance st)) ->
             (max_rowid <= last_rowid st)%Z ->
             post_attendance now b st
             = (status_json 500 (ErrorBody "Failed to record attendance."), st))).
Proof.
  split.
  - unfold post_attendance.
    destruct (truthy (a_employeeId b)) as [x |]; [| simpl; auto].
    destruct (truthy (a_date b)) as [y |]; [| simpl; auto].
    destruct (truthy (a_status b)) as [z |]; [| simpl; auto].
    intros [H | [H | [H | [(d & H & Hd) | (s & H & Hp & Ha)]]]];
      try discriminate; injection H as ->.
    + rewrite Hd. simpl. auto.
    + destruct (isValidDate y); simpl; auto.
      apply String.eqb_neq in Hp, Ha. rewrite Hp, Ha. simpl. auto.
  - intros eid d s H1 H2 H3 Hd Hs.
    rewrite (post_attendance_checked now b st eid d s) by assumption.
    repeat split.
    + intros Hn. now rewrite (proj2 (select_employee_id_None eid st) Hn).
    + intros Hk Hin. rewrite (select_employee_id_known _ _ Hk).
      destruct (select_attendance_id_known _ _ _ Hin) as [i ->]. reflexivity.
    + intros Hk Hn Hroom. rewrite (select_employee_id_known _ _ Hk).
      rewrite (proj2 (select_attendance_id_None eid d st) Hn).
      rewrite insert_attendance_fresh by assumption.
      destruct (Z.leb_spec max_rowid (last_rowid st)); [lia | reflexivity].
    + intros Hk Hn Hfull. rewrite (select_employee_id_known _ _ Hk).
      rewrite (proj2 (select_attendance_id_None eid d st) Hn).
      rewrite insert_attendance_fresh by assumption.
      destruct (Z.leb_spec max_rowid (last_rowid st)); [reflexivity | lia].
Qed.

(** X8. A request answered with an error, 400 or above, leaves the store as
    it was, whichever route it went to. *)
Theorem errors_write_nothing r st :
  (400 <= code (fst (handle r st)))%nat -> snd (handle r st) = st.
Proof.
  destruct r as [| | now b | eid | now b | eid s e]; simpl; auto.
  - unfold post_employees.
    repeat match goal with
           | |- context [match ?x with _ => _ end] => destruct x eqn:?; simpl; auto
           end.
    lia.
  - unfold delete_employees. destruct (select_employee_id eid st); simpl; auto. lia.
  - unfold post_attendance.
    repeat match goal with
           | |- context [match ?x with _ => _ end] => destruct x eqn:?; simpl; auto
           end.
    lia.
Qed.

Lemma errors_write_nothing_witness :
  let r := PostAttendance "2024-02-01T08:00:00.000Z"
             (mkAttendanceBody (JString "E9") (JString "2024-02-01") (JString "Present")) in
  code (fst (handle r sample_store)) = 404%nat
  /\ snd (handle r sample_store) = sample_store.
Proof.
  intros r. split; [reflexivity |].
  apply (errors_write_nothing r sample_store). vm_compute. lia.
Defined.

Lemma record_attendance_outcomes_witness :
  let b := mkAttendanceBody (JString "E2") (JString "2024-02-01") (JString "Present") in
  post_attendance "2024-02-01T09:00:00.000Z" b sample_store
  = (status_json 201 (MessageBody "Attendance recorded."),
     mkStore (employees sample_store)
             (attendance sample_store
                ++ [mkAttendance 5 "E2" "2024-02-01" "Present"
                                 "2024-02-01T09:00:00.000Z"])
             5).
Proof.
  intros b.
  destruct (record_attendance_outcomes "2024-02-01T09:00:00.000Z" b sample_store)
    as [_ H].
  destruct (H "E2" "2024-02-01" "Present" eq_refl eq_refl eq_refl eq_refl
              (or_introl eq_refl)) as (_ & _ & Hcreated & _).
  apply Hcreated.
  - vm_compute. auto.
  - vm_compute. intros Hin.
    repeat (destruct Hin as [Hin | Hin]; [discriminate Hin |]). exact Hin.
  - reflexivity.
Defined.

(** ** Round trips *)

Lemma filter_none {A : Type} (p : A -> bool) (l : list A) :
  (forall a, In a l -> p a = false) -> filter p l = [].
Proof.
  induction l as [| x t IH]; simpl; intros H; [reflexivity |].
  rewrite (H x (or_introl eq_refl)). apply IH. intros a Ha. apply H. now right.
Qed.

Lemma filter_all {A : Type} (p : A -> bool) (l : list A) :
  (forall a, In a l -> p a = true) -> filter p l = l.
Proof.
  induction l as [| x t IH]; simpl; intros H; [reflexivity |].
  rewrite (H x (or_introl eq_refl)). f_equal. apply IH. intros a Ha. apply H. now right.
Qed.

(** A request that passes every check and finds room is answered 201, and
    its row is appended under the next rowid. *)
Lemma post_attendance_recorded now b st eid d s :
  truthy (a_employeeId b) = Some eid ->
  truthy (a_date b) = Some d ->
  truthy (a_status b) = Some s ->
  isValidDate d = true ->
  s = "Present" \/ s = "Absent" ->
  In eid (map employee_id (employees st)) ->
  ~ In (eid, d) (map att_key (attendance st)) ->
  (last_rowid st < max_rowid)%Z ->
  post_attendance now b st
  = (status_json 201 (MessageBody "Attendance recorded."),
     mkStore (employees st)
             (attendance st ++ [mkAttendance (last_rowid st + 1) eid d s now])
             (last_rowid st + 1)).
Proof.
  intros H1 H2 H3 Hd Hs Hk Hn Hroom.
  rewrite (post_attendance_checked now b st eid d s) by assumption.
  rewrite (select_employee_id_known _ _ Hk).
  rewrite (proj2 (select_attendance_id_None eid d st) Hn).
  rewrite insert_attendance_fresh by assumption.
  destruct (Z.leb_spec max_rowid (last_rowid st)); [lia | reflexivity].
Qed.

(** X9. Record, then query: after attendance is recorded, the query of that
    employee with the recorded date as both bounds returns that one record,
    with the status sent and the time of the server. *)
Theorem record_then_query now b st eid d s :
  truthy (a_employeeId b) = Some eid ->
  truthy (a_date b) = Some d ->
  truthy (a_status b) = Some s ->
  isValidDate d = true ->
  s = "Present" \/ s = "Absent" ->
  In eid (map employee_id (employees st)) ->
  ~ In (eid, d) (map att_key (attendance st)) ->
  (last_rowid st < max_rowid)%Z ->
  get_employee_attendance eid (a_date b) (a_date b) (snd (post_attendance now b st))
  = json (RecordsBody [mkAttendance (last_rowid st + 1) eid d s now]).
Proof.
  intros H1 H2 H3 Hd Hs Hk Hn Hroom.
  rewrite (post_attendance_recorded now b st eid d s) by assumption.
  cbn [snd].
  assert (Hm : malformed (a_date b) = false) by (unfold malformed; now rewrite H2, Hd).
  rewrite query_known_records by (simpl; assumption).
  cbn [attendance]. rewrite filter_app.
  rewrite filter_none.
  - simpl. unfold in_range. rewrite H2. simpl.
    now rewrite String.eqb_refl, string_leb_refl.
  - intros a Ha. apply not_true_iff_false. intros Hc.
    apply andb_true_iff in Hc as [He Hr]. apply String.eqb_eq in He.
    unfold in_range in Hr. rewrite H2 in Hr. apply andb_true_iff in Hr as [Hr1 Hr2].
    apply Hn. apply in_map_iff. exists a. split; [| assumption].
    unfold att_key. rewrite He. f_equal. now apply String.leb_antisym.
Qed.

Lemma record_then_query_witness :
  let b := mkAttendanceBody (JString "E2") (JString "2024-02-01") (JString "Present") in
  last_rowid sample_store = 4%Z
  /\ get_employee_attendance "E2" (a_date b) (a_date b)
       (snd (post_attendance "2024-02-01T09:00:00.000Z" b sample_store))
     = json (RecordsBody [mkAttendance (last_rowid sample_store + 1) "E2" "2024-02-01"
                                       "Present" "2024-02-01T09:00:00.000Z"]).
Proof.
  intros b. split; [reflexivity |].
  assert (Hk : In "E2" (map employee_id (employees sample_store)))
    by (vm_compute; auto).
  assert (Hn : ~ In ("E2", "2024-02-01") (map att_key (attendance sample_store))).
  { vm_compute. intros Hin.
    repeat (destruct Hin as [Hin | Hin]; [discriminate Hin |]). exact Hin. }
  assert (Hroom : (last_rowid sample_store < max_rowid)%Z) by reflexivity.
  exact (record_then_query "2024-02-01T09:00:00.000Z" b sample_store
                           "E2" "2024-02-01" "Present"
                           eq_refl eq_refl eq_refl eq_refl (or_introl eq_refl)
                           Hk Hn Hroom).
Defined.

Lemma handle_keeps_employee eid r st e :
  deletes_employee eid r = false ->
  In e (employees st) -> employee_id e = eid ->
  In e (employees (snd (handle r st))).
Proof.
  intros Hr He Hid. destruct r as [| | now b | x | now b | x s0 e0]; simpl; auto.
  - unfold post_employees.
    repeat match goal with
           | |- context [match ?x with _ => _ end] => destruct x eqn:?; simpl; auto
           end.
    unfold insert_employee in *.
    repeat match goal with
           | H : context [if ?x then _ else _] |- _ => destruct x; try discriminate
           end.
    match goal with H : Ok _ = Ok _ |- _ => injection H as <- end. simpl.
    apply in_or_app. now left.
  - unfold delete_employees. destruct (select_employee_id x st); simpl; auto.
    apply filter_In. split; [assumption |].
    simpl in Hr. apply negb_true_iff, String.eqb_neq.
    apply String.eqb_neq in Hr. congruence.
  - unfold post_attendance.
    repeat match goal with
           | |- context [match ?x with _ => _ end] => destruct x eqn:?; simpl; auto
           end.
    unfold insert_attendance in *.
    repeat match goal with
           | H : context [if ?x then _ else _] |- _ => destruct x; try discriminate
           end.
    match goal with H : Ok _ = Ok _ |- _ => injection H as <- end. exact He.
Qed.

Lemma handle_keeps_record eid r st a :
  deletes_employee eid r = false ->
  In a (attendance st) -> att_employee_id a = eid ->
  In a (attendance (snd (handle r st))).
Proof.
  intros Hr Ha Hid. destruct r as [| | now b | x | now b | x s0 e0]; simpl; auto.
  - unfold post_employees.
    repeat match goal with
           | |- context [match ?x with _ => _ end] => destruct x eqn:?; simpl; auto
           end.
    unfold insert_employee in *.
    repeat match goal with
           | H : context [if ?x then _ else _] |- _ => destruct x; try discriminate
           end.
    match goal with H : Ok _ = Ok _ |- _ => injection H as <- end. exact Ha.
  - unfold delete_employees. destruct (select_employee_id x st); simpl; auto.
    apply filter_In. split; [assumption |].
    apply negb_true_iff, not_true_iff_false. intros Hex.
    apply existsb_exists in Hex as (e & He & Heq).
    apply filter_In in He as [_ He]. apply String.eqb_eq in He, Heq.
    simpl in Hr. apply String.eqb_neq in Hr. congruence.
  - unfold post_attendance.
    repeat match goal with
           | |- context [match ?x with _ => _ end] => destruct x eqn:?; simpl; auto
           end.
    unfold insert_attendance in *.
    repeat match goal with
           | H : context [if ?x then _ else _] |- _ => destruct x; try discriminate
           end.
    match goal with H : Ok _ = Ok _ |- _ => injection H as <- end. simpl.
    apply in_or_app. now left.
Qed.

(** Rows of an employee stay as long as no request deletes that employee. *)
Lemma run_keeps_rows eid rs :
  forallb (fun r => negb (deletes_employee eid r)) rs = true ->
  forall st,
    (forall e, In e (employees st) -> employee_id e = eid ->
               In e (employees (run rs st)))
    /\ (forall a, In a (attendance st) -> att_employee_id a = eid ->
                  In a (attendance (run rs st))).
Proof.
  unfold run. induction rs as [| r rs IH]; simpl; intros Hrs st; [auto |].
  apply andb_true_iff in Hrs as [Hr Hrs]. apply negb_true_iff in Hr.
  destruct (IH Hrs (snd (handle r st))) as [IHe IHa]. split.
  - intros e He Hid. apply IHe; [| assumption]. now apply handle_keeps_employee with eid.
  - intros a Ha Hid. apply IHa; [| assumption]. now apply handle_keeps_record with eid.
Qed.

(** X10. Record twice: once a request to record attendance has been
    answered 201, a later request for the same employee and date, with
    either status, is answered 409 and writes nothing, whatever requests
    were answered in between, as long as none of them deleted that
    employee. *)
Theorem record_twice_conflicts now1 now2 b1 b2 st eid d rs :
  truthy (a_employeeId b1) = Some eid ->
  truthy (a_date b1) = Some d ->
  truthy (a_employeeId b2) = Some eid ->
  truthy (a_date b2) = Some d ->
  a_status b2 = JString "Present" \/ a_status b2 = JString "Absent" ->
  code (fst (post_attendance now1 b1 st)) = 201%nat ->
  forallb (fun r => negb (deletes_employee eid r)) rs = true ->
  post_attendance now2 b2 (run rs (snd (post_attendance now1 b1 st)))
  = (status_json 409 (ErrorBody "Attendance already recorded for this date."),
     run rs (snd (post_attendance now1 b1 st))).
Proof.
  intros H1 H2 H3 H4 Hs2 Hcode Hrs.
  assert (Hfirst : isValidDate d = true
                   /\ In eid (map employee_id
                                  (employees (snd (post_attendance now1 b1 st))))
                   /\ In (eid, d) (map att_key
                                       (attendance (snd (post_attendance now1 b1 st))))).
  { revert Hcode. unfold post_attendance. rewrite H1, H2.
    destruct (truthy (a_status b1)) as [s1 |]; simpl; [| discriminate].
    destruct (isValidDate d); simpl; [| discriminate].
    destruct (_ || _); simpl; [| discriminate].
    destruct (select_employee_id eid st) as [x |] eqn:Ek; simpl; [| discriminate].
    destruct (select_attendance_id eid d st); simpl; [discriminate |].
    destruct (insert_attendance eid d s1 now1 st) as [st' |] eqn:Hins; simpl;
      [| discriminate].
    intros _. unfold insert_attendance in Hins.
    repeat match type of Hins with
           | context [if ?c then _ else _] => destruct c; try discriminate
           end.
    injection Hins as <-. simpl. split; [reflexivity |]. split.
    - now apply select_employee_id_Some in Ek as [_ Ek].
    - rewrite map_app. apply in_or_app. right. now left. }
  destruct Hfirst as (Hd & Hk & Hin).
  set (st1 := snd (post_attendance now1 b1 st)) in *.
  destruct (run_keeps_rows eid rs Hrs st1) as [Hemp Hatt].
  assert (Hk' : In eid (map employee_id (employees (run rs st1)))).
  { apply in_map_iff in Hk as (e & He & Hine).
    apply in_map_iff. exists e. auto. }
  assert (Hin' : In (eid, d) (map att_key (attendance (run rs st1)))).
  { apply in_map_iff in Hin as (a & Ha & Hina).
    apply in_map_iff. exists a. split; [assumption |].
    apply Hatt; [assumption |]. unfold att_key in Ha. congruence. }
  assert (Hs2' : exists s2, truthy (a_status b2) = Some s2
                            /\ (s2 = "Present" \/ s2 = "Absent")).
  { destruct Hs2 as [-> | ->]; eexists; (split; [reflexivity |]); auto. }
  destruct Hs2' as (s2 & Ht2 & Hv2).
  rewrite (post_attendance_checked now2 b2 (run rs st1) eid d s2) by assumption.
  rewrite (select_employee_id_known _ _ Hk').
  destruct (select_attendance_id_known _ _ _ Hin') as [i ->]. reflexivity.
Qed.

Lemma record_twice_conflicts_witness :
  let b := mkAttendanceBody (JString "E2") (JString "2024-02-01") (JString "Present") in
  let b' := mkAttendanceBody (JString "E2") (JString "2024-02-01") (JString "Absent") in
  let rs := [DeleteEmployees "E1";
             PostEmployees "2024-02-01T12:00:00.000Z" cy;
             GetSummary] in
  code (fst (post_attendance "2024-02-01T09:00:00.000Z" b sample_store)) = 201%nat
  /\ post_attendance "2024-02-01T17:00:00.000Z" b'
       (run rs (snd (post_attendance "2024-02-01T09:00:00.000Z" b sample_store)))
     = (status_json 409 (ErrorBody "Attendance already recorded for this date."),
        run rs (snd (post_attendance "2024-02-01T09:00:00.000Z" b sample_store))).
Proof.
  intros b b' rs.
  assert (Hcode : code (fst (post_attendance "2024-02-01T09:00:00.000Z" b sample_store))
                  = 201%nat) by reflexivity.
  split; [exact Hcode |].
  exact (record_twice_conflicts "2024-02-01T09:00:00.000Z" "2024-02-01T17:00:00.000Z"
                                b b' sample_store "E2" "2024-02-01" rs
                                eq_refl eq_refl eq_refl eq_refl (or_intror eq_refl)
                                Hcode eq_refl).
Defined.

(** ** Create and delete *)

(** X11. Create twice: once an employee has been created, a later request
    with all four fields and a well-formed email that reuses its employeeId
    or its email is answered 409 and writes nothing, whatever requests were
    answered in between, as long as none of them deleted that employee. *)
Theorem create_twice_conflicts now1 now2 b1 b2 st eid1 em1 eid2 name2 em2 dept2 rs :
  truthy (b_employeeId b1) = Some eid1 ->
  truthy (b_email b1) = Some em1 ->
  code (fst (post_employees now1 b1 st)) = 201%nat ->
  forallb (fun r => negb (deletes_employee eid1 r)) rs = true ->
  truthy (b_employeeId b2) = Some eid2 ->
  truthy (b_fullName b2) = Some name2 ->
  truthy (b_email b2) = Some em2 ->
  truthy (b_department b2) = Some dept2 ->
  isValidEmail em2 = true ->
  eid2 = eid1 \/ em2 = em1 ->
  code (fst (post_employees now2 b2 (run rs (snd (post_employees now1 b1 st)))))
  = 409%nat
  /\ snd (post_employees now2 b2 (run rs (snd (post_employees now1 b1 st))))
     = run rs (snd (post_employees now1 b1 st)).
Proof.
  intros A1 A3 Hcode Hrs B1 B2 B3 B4 Hv Hsame.
  set (st1 := snd (post_employees now1 b1 st)).
  assert (Hfirst : exists e, In e (employees st1)
                             /\ employee_id e = eid1 /\ email e = em1).
  { subst st1. revert Hcode. unfold post_employees. rewrite A1, A3.
    destruct (truthy (b_fullName b1)) as [name1 |]; simpl; [| discriminate].
    destruct (truthy (b_department b1)) as [dept1 |]; simpl; [| discriminate].
    destruct (isValidEmail em1); simpl; [| discriminate].
    destruct (select_employee_id eid1 st); simpl; [discriminate |].
    destruct (select_email em1 st); simpl; [discriminate |].
    destruct (insert_employee _ st) as [st' |] eqn:Hins; simpl; [| discriminate].
    intros _. unfold insert_employee in Hins.
    repeat match type of Hins with
           | context [if ?c then _ else _] => destruct c; try discriminate
           end.
    injection Hins as <-. simpl.
    eexists. split; [apply in_or_app; right; now left |]. split; reflexivity. }
  destruct Hfirst as (e & He & Hid & Hem).
  destruct (run_keeps_rows eid1 rs Hrs st1) as [Hemp _].
  specialize (Hemp e He Hid).
  assert (Hid' : In eid1 (map employee_id (employees (run rs st1))))
    by (rewrite <- Hid; now apply in_map).
  assert (Hem' : In em1 (map email (employees (run rs st1))))
    by (rewrite <- Hem; now apply in_map).
  unfold post_employees. rewrite B1, B2, B3, B4, Hv. simpl.
  destruct (select_employee_id eid2 (run rs st1)) eqn:E2; [simpl; auto |].
  destruct (select_email em2 (run rs st1)) eqn:E3; [simpl; auto |].
  apply select_employee_id_None in E2. apply select_email_None in E3.
  destruct Hsame as [-> | ->]; contradiction.
Qed.

Lemma create_twice_conflicts_witness :
  let b' := mkEmployeeBody (JString "E7") (JString "Cyd") (JString "cy@x.com")
                           (JString "Ops") in
  let rs := [DeleteEmployees "E1";
             PostAttendance "2024-02-01T12:00:00.000Z"
               (mkAttendanceBody (JString "E3") (JString "2024-02-01")
                                 (JString "Present"))] in
  code (fst (post_employees "2024-02-01T08:00:00.000Z" cy sample_store)) = 201%nat
  /\ code (fst (post_employees "2024-02-02T08:00:00.000Z" b'
                 (run rs (snd (post_employees "2024-02-01T08:00:00.000Z" cy
                                              sample_store)))))
     = 409%nat
  /\ snd (post_employees "2024-02-02T08:00:00.000Z" b'
            (run rs (snd (post_employees "2024-02-01T08:00:00.000Z" cy sample_store))))
     = run rs (snd (post_employees "2024-02-01T08:00:00.000Z" cy sample_store)).
Proof.
  intros b' rs.
  assert (Hcode : code (fst (post_employees "2024-02-01T08:00:00.000Z" cy sample_store))
                  = 201%nat) by reflexivity.
  split; [exact Hcode |].
  exact (create_twice_conflicts "2024-02-01T08:00:00.000Z" "2024-02-02T08:00:00.000Z"
                                cy b' sample_store "E3" "cy@x.com"
                                "E7" "Cyd" "cy@x.com" "Ops" rs
                                eq_refl eq_refl Hcode eq_refl
                                eq_refl eq_refl eq_refl eq_refl
                                eq_refl (or_intror eq_refl)).
Defined.

Lemma NoDup_map_inj {A B : Type} (f : A -> B) (l : list A) (x y : A) :
  NoDup (map f l) -> In x l -> In y l -> f x = f y -> x = y.
Proof.
  induction l as [| z t IH]; simpl; intros Hnd Hx Hy E; [contradiction |].
  inversion Hnd as [| ? ? Hz Ht]; subst.
  destruct Hx as [-> | Hx], Hy as [-> | Hy]; auto.
  - exfalso. apply Hz. rewrite E. now apply in_map.
  - exfalso. apply Hz. rewrite <- E. now apply in_map.
Qed.

Lemma store_eta st : mkStore (employees st) (attendance st) (attendance_seq st) = st.
Proof. now destruct st. Qed.

(** X12. Create, then delete: deleting an employee just created, in a
    store that satisfies the schema, gives back the store as it was before
    the creation. *)
Theorem create_then_delete_restores now b st eid name em dept :
  store_ok st ->
  truthy (b_employeeId b) = Some eid ->
  truthy (b_fullName b) = Some name ->
  truthy (b_email b) = Some em ->
  truthy (b_department b) = Some dept ->
  isValidEmail em = true ->
  ~ In eid (map employee_id (employees st)) ->
  ~ In em (map email (employees st)) ->
  delete_employees eid (snd (post_employees now b st))
  = (json (MessageBody "Employee deleted."), st).
Proof.
  intros Hok H1 H2 H3 H4 Hv Hid Hem.
  rewrite (post_employees_created now b st eid name em dept) by assumption.
  cbn [snd]. unfold delete_employees.
  rewrite select_employee_id_known
    by (simpl; rewrite map_app; apply in_or_app; right; now left).
  f_equal. unfold delete_employee. cbn [employees attendance attendance_seq].
  rewrite <- (store_eta st) at 4. f_equal.
  - rewrite filter_app. simpl. rewrite String.eqb_refl. simpl. rewrite app_nil_r.
    apply filter_all. intros e He. apply negb_true_iff, String.eqb_neq.
    intros E. apply Hid. rewrite <- E. now apply in_map.
  - apply filter_all. intros a Ha. apply negb_true_iff, not_true_iff_false.
    intros Hex. apply existsb_exists in Hex as (e & He & Heq).
    apply filter_In in He as [_ He]. apply String.eqb_eq in He, Heq.
    apply Hid. rewrite <- He, Heq. now apply (fk_attendance st Hok).
Qed.

Lemma create_then_delete_restores_witness :
  delete_employees "E3" (snd (post_employees "2024-02-01T08:00:00.000Z" cy sample_store))
  = (json (MessageBody "Employee deleted."), sample_store).
Proof.
  assert (Hid : ~ In "E3" (map employee_id (employees sample_store)))
    by not_in_sample.
  assert (Hem : ~ In "cy@x.com" (map email (employees sample_store)))
    by not_in_sample.
  exact (create_then_delete_restores "2024-02-01T08:00:00.000Z" cy sample_store
                                     "E3" "Cy" "cy@x.com" "Eng" sample_store_ok
                                     eq_refl eq_refl eq_refl eq_refl eq_refl Hid Hem).
Defined.

Lemma delete_employee_ids eid st x :
  In x (map employee_id (employees (delete_employee eid st)))
  <-> In x (map employee_id (employees st)) /\ x <> eid.
Proof.
  unfold delete_employee; simpl. rewrite !in_map_iff. split.
  - intros (e & <- & He). apply filter_In in He as [He Hne].
    apply negb_true_iff, String.eqb_neq in Hne. eauto.
  - intros [(e & <- & He) Hne]. exists e. split; [reflexivity |].
    apply filter_In. split; [assumption |]. now apply negb_true_iff, String.eqb_neq.
Qed.

Lemma delete_employees_ids eid st x :
  In x (map employee_id (employees (snd (delete_employees eid st))))
  <-> In x (map employee_id (employees st)) /\ x <> eid.
Proof.
  unfold delete_employees.
  destruct (select_employee_id eid st) eqn:E; cbn [snd].
  - apply delete_employee_ids.
  - apply select_employee_id_None in E. split; [| tauto].
    intros Hx. split; [assumption |]. congruence.
Qed.

(** X13. After the delete request for an id has been answered, whatever the
    answer, that id is unknown: a second delete, an attendance query and a
    well-formed request to record attendance for it are all answered 404. *)
Theorem deleted_employee_is_unknown eid st :
  let st' := snd (delete_employees eid st) in
  delete_employees eid st' = (status_json 404 (ErrorBody "Employee not found."), st')
  /\ (forall s e,
         get_employee_attendance eid s e st'
         = status_json 404 (ErrorBody "Employee not found."))
  /\ (forall now b d s,
         truthy (a_employeeId b) = Some eid ->
         truthy (a_date b) = Some d ->
         truthy (a_status b) = Some s ->
         isValidDate d = true ->
         s = "Present" \/ s = "Absent" ->
         post_attendance now b st'
         = (status_json 404 (ErrorBody "Employee not found."), st')).
Proof.
  intros st'.
  assert (Hgone : select_employee_id eid st' = None).
  { apply select_employee_id_None. intros Hin.
    apply delete_employees_ids in Hin as [_ Hne]. congruence. }
  split; [| split].
  - unfold delete_employees. now rewrite Hgone.
  - intros s e. unfold get_employee_attendance. now rewrite Hgone.
  - intros now b d s H1 H2 H3 Hd Hs.
    rewrite (post_attendance_checked now b st' eid d s) by assumption.
    now rewrite Hgone.
Qed.

(** X14. The id and the email of a deleted employee are free again: in a
    store that satisfies the schema, a well-formed request that reuses both
    right after the delete is answered 201. *)
Theorem delete_then_create_again now b st e name dept :
  store_ok st ->
  In e (employees st) ->
  truthy (b_employeeId b) = Some (employee_id e) ->
  truthy (b_fullName b) = Some name ->
  truthy (b_email b) = Some (email e) ->
  truthy (b_department b) = Some dept ->
  isValidEmail (email e) = true ->
  fst (post_employees now b (snd (delete_employees (employee_id e) st)))
  = status_json 201 (MessageBody "Employee created.").
Proof.
  intros Hok He H1 H2 H3 H4 Hv.
  rewrite (post_employees_created now b _ (employee_id e) name (email e) dept);
    try assumption; [reflexivity | |].
  - intros Hin. apply delete_employees_ids in Hin as [_ Hne]. congruence.
  - unfold delete_employees.
    rewrite (select_employee_id_known (employee_id e) st) by now apply in_map.
    cbn [snd delete_employee employees]. intros Hin.
    apply in_map_iff in Hin as (e' & Hem & He').
    apply filter_In in He' as [He' Hne].
    apply negb_true_iff, String.eqb_neq in Hne. apply Hne.
    f_equal. apply (NoDup_map_inj email (employees st)); auto.
    apply (uq_email st Hok).
Qed.

Lemma delete_then_create_again_witness :
  fst (post_employees "2024-02-01T08:00:00.000Z" ann
         (snd (delete_employees "E1" sample_store)))
  = status_json 201 (MessageBody "Employee created.").
Proof.
  assert (He : In (mkEmployee "E1" "Ann" "ann@x.com" "Eng" "2024-01-01T08:00:00.000Z")
                  (employees sample_store)) by (vm_compute; auto).
  exact (delete_then_create_again "2024-02-01T08:00:00.000Z" ann sample_store
           (mkEmployee "E1" "Ann" "ann@x.com" "Eng" "2024-01-01T08:00:00.000Z")
           "Ann" "Eng" sample_store_ok He eq_refl eq_refl eq_refl eq_refl eq_refl).
Defined.

Lemma filter_filter_implied {A : Type} (p q : A -> bool) (l : list A) :
  (forall a, p a = true -> q a = true) -> filter p (filter q l) = filter p l.
Proof.
  intros Himp. induction l as [| x t IH]; simpl; [reflexivity |].
  destruct (q x) eqn:Hq; simpl.
  - now rewrite IH.
  - destruct (p x) eqn:Hp; [| exact IH].
    apply Himp in Hp. congruence.
Qed.

(** The attendance query reads the store through the lookup of its
    employee and through the rows of [attendance] that carry its id. *)
Lemma get_employee_attendance_ext eid s e st1 st2 :
  select_employee_id eid st1 = select_employee_id eid st2 ->
  filter (fun a => (att_employee_id a =? eid)%string) (attendance st1)
  = filter (fun a => (att_employee_id a =? eid)%string) (attendance st2) ->
  get_employee_attendance eid s e st1 = get_employee_attendance eid s e st2.
Proof.
  intros Hsel Hrows.
  assert (Hw : forall w, select_attendance (EmployeeIs eid :: w) st1
                         = select_attendance (EmployeeIs eid :: w) st2).
  { intros w. unfold select_attendance. f_equal.
    rewrite <- (filter_filter_implied _ (fun a => (att_employee_id a =? eid)%string)
                                      (attendance st1)).
    2:{ intros a Ha. simpl in Ha. now apply andb_true_iff in Ha as [Ha _]. }
    rewrite <- (filter_filter_implied _ (fun a => (att_employee_id a =? eid)%string)
                                      (attendance st2)).
    2:{ intros a Ha. simpl in Ha. now apply andb_true_iff in Ha as [Ha _]. }
    now rewrite Hrows. }
  unfold get_employee_attendance. rewrite Hsel.
  destruct (select_employee_id eid st2); [| reflexivity].
  destruct (truthy s) as [s' |]; [destruct (isValidDate s') |];
    (destruct (truthy e) as [e' |]; [destruct (isValidDate e') |]);
    simpl; try reflexivity; now rewrite Hw.
Qed.

Lemma select_employee_id_ext eid st1 st2 :
  (In eid (map employee_id (employees st1))
   <-> In eid (map employee_id (employees st2))) ->
  select_employee_id eid st1 = select_employee_id eid st2.
Proof.
  intros H.
  destruct (select_employee_id eid st2) as [x |] eqn:E2.
  - apply select_employee_id_Some in E2 as [-> E2].
    apply select_employee_id_known. tauto.
  - apply select_employee_id_None in E2. apply select_employee_id_None. tauto.
Qed.

(** X15. Deleting an employee takes nothing from the others: for any other
    id, the attendance query answers after the delete what it answered
    before. *)
Theorem delete_spares_others eid eid' s e st :
  eid' <> eid ->
  get_employee_attendance eid' s e (snd (delete_employees eid st))
  = get_employee_attendance eid' s e st.
Proof.
  intros Hne. apply get_employee_attendance_ext.
  - apply select_employee_id_ext. rewrite delete_employees_ids. tauto.
  - unfold delete_employees.
    destruct (select_employee_id eid st) as [x |] eqn:E; cbn [snd]; [| reflexivity].
    apply select_employee_id_Some in E as [_ E].
    rewrite (delete_employee_attendance _ _ E).
    apply filter_filter_implied. intros a Ha. apply String.eqb_eq in Ha.
    apply negb_true_iff, String.eqb_neq. congruence.
Qed.

Lemma delete_spares_others_witness :
  "E1" <> "E2"
  /\ get_employee_attendance "E1" JUndefined JUndefined
       (snd (delete_employees "E2" sample_store))
     = get_employee_attendance "E1" JUndefined JUndefined sample_store.
Proof.
  assert (Hne : "E1" <> "E2") by discriminate.
  split; [exact Hne |].
  exact (delete_spares_others "E2" "E1" JUndefined JUndefined sample_store Hne).
Defined.

(** X16. An employee just created has no attendance: in a store that
    satisfies the schema, the query of its full history answers 200 with no
    record. *)
Theorem new_employee_has_no_attendance now b st eid name em dept :
  store_ok st ->
  truthy (b_employeeId b) = Some eid ->
  truthy (b_fullName b) = Some name ->
  truthy (b_email b) = Some em ->
  truthy (b_department b) = Some dept ->
  isValidEmail em = true ->
  ~ In eid (map employee_id (employees st)) ->
  ~ In em (map email (employees st)) ->
  get_employee_attendance eid JUndefined JUndefined (snd (post_employees now b st))
  = json (RecordsBody []).
Proof.
  intros Hok H1 H2 H3 H4 Hv Hid Hem.
  rewrite (post_employees_created now b st eid name em dept) by assumption.
  cbn [snd]. rewrite query_known_records; try reflexivity.
  - cbn [attendance]. rewrite filter_none; [reflexivity |].
    intros a Ha. apply andb_false_iff. left. apply String.eqb_neq.
    intros E. apply Hid. rewrite <- E. now apply (fk_attendance st Hok).
  - simpl. rewrite map_app. apply in_or_app. right. now left.
Qed.

Lemma new_employee_has_no_attendance_witness :
  get_employee_attendance "E3" JUndefined JUndefined
    (snd (post_employees "2024-02-01T08:00:00.000Z" cy sample_store))
  = json (RecordsBody []).
Proof.
  assert (Hid : ~ In "E3" (map employee_id (employees sample_store)))
    by not_in_sample.
  assert (Hem : ~ In "cy@x.com" (map email (employees sample_store)))
    by not_in_sample.
  exact (new_employee_has_no_attendance "2024-02-01T08:00:00.000Z" cy sample_store
           "E3" "Cy" "cy@x.com" "Eng" sample_store_ok
           eq_refl eq_refl eq_refl eq_refl eq_refl Hid Hem).
Defined.

(** ** What the store never does *)

(** X17. Rowids of [attendance] are never reused: a row found after any
    further requests either was there before, unchanged, or carries an id
    above every id the table held, the rows deleted since included. *)
Theorem rowids_never_reused rs st a :
  store_ok st ->
  In a (attendance (run rs st)) ->
  In a (attendance st)
  \/ (forall a0, In a0 (attendance st) -> (att_id a0 < att_id a)%Z).
Proof.
  intros Hok Ha. apply run_attendance_origin in Ha as [Ha | Ha]; [now left |].
  right. intros a0 Ha0. pose proof (seq_attendance st Hok a0 Ha0). lia.
Qed.

Lemma rowids_never_reused_witness :
  let rs := [DeleteEmployees "E2";
             PostEmployees "2024-02-01T08:00:00.000Z" bob;
             PostAttendance "2024-02-01T09:00:00.000Z"
               (mkAttendanceBody (JString "E2") (JString "2024-01-25") (JString "Absent"))] in
  let a := mkAttendance 5 "E2" "2024-01-25" "Absent" "2024-02-01T09:00:00.000Z" in
  In a (attendance (run rs sample_store))
  /\ (In a (attendance sample_store)
      \/ (forall a0, In a0 (attendance sample_store) -> (att_id a0 < att_id a)%Z)).
Proof.
  intros rs a.
  assert (Ha : In a (attendance (run rs sample_store))) by (vm_compute; auto).
  split; [exact Ha |].
  exact (rowids_never_reused rs sample_store a sample_store_ok Ha).
Defined.

Lemma handle_employees_valid r st :
  employees_valid st -> employees_valid (snd (handle r st)).
Proof.
  intros Hv. destruct r as [| | now b | eid | now b | eid s e]; simpl; auto.
  - unfold post_employees.
    destruct (truthy (b_employeeId b)) as [eid |] eqn:T1; simpl; auto.
    destruct (truthy (b_fullName b)) as [name |] eqn:T2; simpl; auto.
    destruct (truthy (b_email b)) as [em |] eqn:T3; simpl; auto.
    destruct (truthy (b_department b)) as [dept |] eqn:T4; simpl; auto.
    destruct (isValidEmail em) eqn:Hem; simpl; auto.
    destruct (select_employee_id eid st); simpl; auto.
    destruct (select_email em st); simpl; auto.
    destruct (insert_employee _ st) as [st' |] eqn:Hins; simpl; auto.
    unfold insert_employee in Hins.
    repeat match type of Hins with
           | context [if ?c then _ else _] => destruct c; try discriminate
           end.
    injection Hins as <-. simpl.
    intros e He. apply in_app_or in He as [He | [<- | []]]; [auto |]. simpl.
    apply truthy_Some in T1 as [_ T1], T2 as [_ T2], T4 as [_ T4]. auto.
  - unfold delete_employees. destruct (select_employee_id eid st); simpl; auto.
    intros e He. apply filter_In in He as [He _]. auto.
  - unfold post_attendance.
    repeat match goal with
           | |- context [match ?x with _ => _ end] => destruct x eqn:?; simpl; auto
           end.
    unfold insert_attendance in *.
    repeat match goal with
           | H : context [if ?x then _ else _] |- _ => destruct x; try discriminate
           end.
    match goal with H : Ok _ = Ok _ |- _ => injection H as <- end. exact Hv.
Qed.

Lemma run_employees_valid rs :
  forall st, employees_valid st -> employees_valid (run rs st).
Proof.
  unfold run. induction rs as [| r rs IH]; simpl; intros st Hv; [assumption |].
  apply IH. now apply handle_employees_valid.
Qed.

(** X18. Whatever requests the server has answered since [initDb] on a
    fresh file: no two employees share an id or an email, no two attendance
    rows share an id or an (employee, date) pair, every attendance row
    belongs to an employee of the store, has a date of the shape YYYY-MM-DD
    and the status Present or Absent, and every employee has a non-empty id,
    name and department and an email that passes [isValidEmail]. *)
Theorem fresh_database_invariants rs :
  let st := run rs empty_store in
  NoDup (map employee_id (employees st))
  /\ NoDup (map email (employees st))
  /\ NoDup (map att_id (attendance st))
  /\ NoDup (map att_key (attendance st))
  /\ (forall a, In a (attendance st) ->
                In (att_employee_id a) (map employee_id (employees st)))
  /\ records_valid st
  /\ employees_valid st.
Proof.
  intros st. destruct (run_ok rs empty_store empty_store_ok)
    as [Hpk Hem Hid _ Huq Hfk].
  repeat (split; [assumption |]). split.
  - apply reachable_records_valid.
  - apply run_employees_valid. intros e [].
Qed.

Lemma query_records_form eid s e st recs :
  get_employee_attendance eid s e st = json (RecordsBody recs) ->
  exists w, recs = select_attendance (EmployeeIs eid :: w) st.
Proof.
  unfold get_employee_attendance, json, status_json.
  destruct (select_employee_id eid st); [| discriminate].
  destruct (truthy s) as [s' |]; [destruct (isValidDate s'); simpl |];
    try discriminate;
    (destruct (truthy e) as [e' |]; [destruct (isValidDate e'); simpl |];
     try discriminate);
    intros [= <-]; eexists; reflexivity.
Qed.

(** X19. A 200 answer of the attendance query holds rows of the employee
    asked for only, and in a store that satisfies the schema no two of them
    have the same date. *)
Theorem query_one_record_per_date eid s e st recs :
  store_ok st ->
  get_employee_attendance eid s e st = json (RecordsBody recs) ->
  (forall a, In a recs -> att_employee_id a = eid)
  /\ NoDup (map att_date recs).
Proof.
  intros Hok Hq. split.
  - intros a Ha. now apply (query_records_stored _ _ _ _ _ Hq).
  - apply query_records_form in Hq as [w ->]. unfold select_attendance.
    eapply Permutation_NoDup.
    { symmetry. apply Permutation_map. apply order_by_perm. }
    pose proof (uq_attendance st Hok) as Huq.
    induction (attendance st) as [| a t IH]; simpl; [constructor |].
    inversion Huq as [| ? ? Ha Ht]; subst.
    destruct (att_employee_id a =? eid)%string eqn:Hh; simpl; [| auto].
    destruct (forallb (holds a) w); simpl; [| auto].
    constructor; [| auto].
    intros Hin. apply Ha. apply in_map_iff in Hin as (a' & Hd & Hin).
    apply filter_In in Hin as [Hin Hc]. simpl in Hc.
    apply andb_true_iff in Hc as [Hc _]. apply String.eqb_eq in Hc, Hh.
    apply in_map_iff. exists a'. split; [| assumption].
    unfold att_key. congruence.
Qed.

Lemma query_one_record_per_date_witness :
  let recs :=
    [mkAttendance 3 "E1" "2024-01-25" "Present" "2024-01-25T09:00:00.000Z";
     mkAttendance 2 "E1" "2024-01-15" "Present" "2024-01-15T09:00:00.000Z";
     mkAttendance 1 "E1" "2024-01-01" "Present" "2024-01-01T09:00:00.000Z"] in
  get_employee_attendance "E1" JUndefined JUndefined sample_store
  = json (RecordsBody recs)
  /\ (forall a, In a recs -> att_employee_id a = "E1")
  /\ NoDup (map att_date recs).
Proof.
  intros recs.
  assert (Hq : get_employee_attendance "E1" JUndefined JUndefined sample_store
               = json (RecordsBody recs)) by (vm_compute; reflexivity).
  split; [exact Hq |].
  exact (query_one_record_per_date "E1" JUndefined JUndefined sample_store recs
                                   sample_store_ok Hq).
Defined.

(** ** What a write shows in the reading routes *)

(** X20. After attendance is recorded, the summary counts one attendance
    record more, and one present record more exactly when the status
    recorded is Present. *)
Theorem record_shows_in_summary now b st eid d s :
  truthy (a_employeeId b) = Some eid ->
  truthy (a_date b) = Some d ->
  truthy (a_status b) = Some s ->
  isValidDate d = true ->
  s = "Present" \/ s = "Absent" ->
  In eid (map employee_id (employees st)) ->
  ~ In (eid, d) (map att_key (attendance st)) ->
  (last_rowid st < max_rowid)%Z ->
  match body (get_summary (snd (post_attendance now b st))), body (get_summary st) with
  | SummaryBody after _, SummaryBody before _ =>
      total_employees after = total_employees before
      /\ total_attendance after = S (total_attendance before)
      /\ total_present after
         = (total_present before + if (s =? "Present")%string then 1 else 0)%nat
  | _, _ => False
  end.
Proof.
  intros H1 H2 H3 Hd Hs Hk Hn Hroom.
  rewrite (post_attendance_recorded now b st eid d s) by assumption.
  unfold get_summary. simpl. rewrite !or_zero_id.
  unfold count_employees, count_attendance, count_present. simpl.
  split; [reflexivity |]. split.
  - rewrite length_app. simpl. lia.
  - rewrite filter_app, length_app. simpl.
    destruct (s =? "Present")%string; reflexivity.
Qed.

Lemma record_shows_in_summary_witness :
  let b := mkAttendanceBody (JString "E2") (JString "2024-02-01") (JString "Present") in
  match body (get_summary (snd (post_attendance "2024-02-01T09:00:00.000Z" b
                                                sample_store))),
        body (get_summary sample_store) with
  | SummaryBody after _, SummaryBody before _ =>
      total_employees after = total_employees before
      /\ total_attendance after = S (total_attendance before)
      /\ total_present after
         = (total_present before + if ("Present" =? "Present")%string then 1 else 0)%nat
  | _, _ => False
  end.
Proof.
  intros b.
  assert (Hk : In "E2" (map employee_id (employees sample_store)))
    by (vm_compute; auto).
  assert (Hn : ~ In ("E2", "2024-02-01") (map att_key (attendance sample_store))).
  { vm_compute. intros Hin.
    repeat (destruct Hin as [Hin | Hin]; [discriminate Hin |]). exact Hin. }
  assert (Hroom : (last_rowid sample_store < max_rowid)%Z) by reflexivity.
  exact (record_shows_in_summary "2024-02-01T09:00:00.000Z" b sample_store
                                 "E2" "2024-02-01" "Present"
                                 eq_refl eq_refl eq_refl eq_refl (or_introl eq_refl)
                                 Hk Hn Hroom).
Defined.

(** X21. An employee created at a time later than every [created_at] of the
    store comes first in the list of employees. *)
Theorem newest_employee_listed_first now b st eid name em dept :
  truthy (b_employeeId b) = Some eid ->
  truthy (b_fullName b) = Some name ->
  truthy (b_email b) = Some em ->
  truthy (b_department b) = Some dept ->
  isValidEmail em = true ->
  ~ In eid (map employee_id (employees st)) ->
  ~ In em (map email (employees st)) ->
  (forall e, In e (employees st) -> String.ltb (created_at e) now = true) ->
  exists rest,
    get_employees (snd (post_employees now b st))
    = json (EmployeesBody (mkEmployee eid name em dept now :: rest))
    /\ Permutation rest (employees st).
Proof.
  intros H1 H2 H3 H4 Hv Hid Hem Hlater.
  rewrite (post_employees_created now b st eid name em dept) by assumption.
  unfold get_employees, select_employees. cbn [snd employees].
  set (new := mkEmployee eid name em dept now).
  set (le := fun x y : Employee => String.leb (created_at y) (created_at x)).
  pose proof (order_by_perm le (employees st ++ [new])) as Hperm.
  pose proof (order_by_sorted le
                (fun x y => String.leb_total (created_at y) (created_at x))
                (fun x y z Hxy Hyz => string_leb_trans _ _ _ Hyz Hxy)
                (employees st ++ [new])) as Hsorted.
  destruct (order_by le (employees st ++ [new])) as [| h rest] eqn:Eo.
  { apply Permutation_nil in Hperm.
    destruct (employees st); discriminate. }
  assert (Hh : h = new).
  { assert (Hin : In h (employees st ++ [new]))
      by (eapply Permutation_in; [exact Hperm | now left]).
    apply in_app_or in Hin as [Hin | [Hin | []]]; [| now symmetry].
    exfalso.
    assert (Hnew : In new (h :: rest)).
    { eapply Permutation_in; [symmetry; exact Hperm |].
      apply in_or_app. right. now left. }
    destruct Hnew as [Hnew | Hnew].
    - subst h. apply Hid. apply (in_map employee_id) in Hin. exact Hin.
    - inversion Hsorted as [| ? ? _ Hall]; subst.
      rewrite Forall_forall in Hall. specialize (Hall new Hnew).
      unfold le in Hall. simpl in Hall.
      specialize (Hlater h Hin). unfold String.ltb in Hlater.
      unfold String.leb in Hall. rewrite String.compare_antisym in Hall.
      destruct (String.compare (created_at h) now); simpl in *; discriminate. }
  subst h. exists rest. split; [reflexivity |].
  apply Permutation_cons_inv with (a := new).
  rewrite Hperm. symmetry. apply Permutation_cons_append.
Qed.

Lemma newest_employee_listed_first_witness :
  exists rest,
    get_employees (snd (post_employees "2024-02-01T08:00:00.000Z" cy sample_store))
    = json (EmployeesBody
              (mkEmployee "E3" "Cy" "cy@x.com" "Eng" "2024-02-01T08:00:00.000Z" :: rest))
    /\ Permutation rest (employees sample_store).
Proof.
  assert (Hid : ~ In "E3" (map employee_id (employees sample_store)))
    by not_in_sample.
  assert (Hem : ~ In "cy@x.com" (map email (employees sample_store)))
    by not_in_sample.
  assert (Hlater : forall e, In e (employees sample_store) ->
                             String.ltb (created_at e) "2024-02-01T08:00:00.000Z" = true).
  { intros e He. vm_compute in He.
    destruct He as [<- | [<- | []]]; reflexivity. }
  exact (newest_employee_listed_first "2024-02-01T08:00:00.000Z" cy sample_store
           "E3" "Cy" "cy@x.com" "Eng"
           eq_refl eq_refl eq_refl eq_refl eq_refl Hid Hem Hlater).
Defined.
